(** * Back2U: claim-resolution notifications (backend/utils/notification.py)

    A shallow embedding of the notification module.  Python exceptions are
    modelled by an exception monad over an explicit world state; every call
    into an external collaborator (database driver, log files, SMTP server)
    may raise, and whether it does is decided by fault oracles of the
    [world], so theorems quantify over every failure pattern. *)

From Stdlib Require Import String Ascii List ZArith Bool Lia.
Import ListNotations.
Open Scope string_scope.
Open Scope list_scope.

Infix "+++" := String.append (at level 60, right associativity).

(** ** Python values used by the module *)

(** Origin of a raised exception: the database driver, the SMTP client,
    the file system (open/write of a log file) or [int()] on a string. *)
Inductive origin := DbError | SmtpError | OSError | ValueError.

(** A raised exception: its origin and its text [str(e)]. *)
Record exc := Exc { exc_origin : origin; exc_text : string }.

Inductive result (A : Type) := Ok (a : A) | Raise (e : exc).
Arguments Ok {A} a.
Arguments Raise {A} e.

(** Rows of the [Users] and [Items] tables as the dictionary cursor returns
    them for the two SELECTs of the module. *)
Record user_row := { email : string; name : string }.
Record item_row := { reported_by : Z; title : string }.
Inductive row := RUser (u : user_row) | RItem (i : item_row).

(** [row['email']], [row['name']], [row['reported_by']], [row['title']];
    each SELECT fixes its columns, so the other constructor does not occur. *)
Definition row_email (r : row) : string :=
  match r with RUser u => email u | RItem _ => "" end.
Definition row_name (r : row) : string :=
  match r with RUser u => name u | RItem _ => "" end.
Definition row_reported_by (r : row) : Z :=
  match r with RItem i => reported_by i | RUser _ => 0 end.
Definition row_title (r : row) : string :=
  match r with RItem i => title i | RUser _ => "" end.

(** A row of [Notifications(user_id, message, type, status)]. *)
Record notif := { n_user_id : Z; n_message : string; n_type : string; n_status : string }.

(** Modelled from the spec: [models.notification_model.Notification] (not
    in the sources); the spec names the type [EMAIL] and the status [SENT]. *)
Definition Notification_TYPES_EMAIL : string := "EMAIL".
Definition Notification_STATUSES_SENT : string := "SENT".

(** The three parameterised statements of the module. *)
Inductive query :=
| SelectUser (user_id : Z)      (* SELECT email, name FROM Users WHERE user_id = %s *)
| SelectItem (item_id : Z)      (* SELECT reported_by, title FROM Items WHERE item_id = %s *)
| InsertNotif (n : notif).      (* INSERT INTO Notifications (...) VALUES (...) *)

(** Database driver calls, in the order they are attempted. *)
Inductive db_op :=
| GetCursor (dictionary : bool)
| Execute (c : nat) (q : query)
| FetchOne (c : nat)
| CloseCursor (c : nat)
| Commit
| CloseConn.

Inductive log_file := EmailDebugLog | CrashDebugLog.

(** The calls of one SMTP session: [SMTP(host, port)], [starttls()],
    [login(user, pass)], [sendmail(from, to, msg)], [quit()]. *)
Inductive smtp_stage := SConnect | SStartTls | SLogin | SSendMail | SQuit.

Inductive net_event :=
| NetConnect (host : string) (port : Z)
| NetStartTls
| NetLogin (user pass : string)
| NetSendMail (sender recipient msg : string)
| NetQuit.

(** ** The world and the state *)

(** Read-only part: the process environment, the two read-only tables, and
    the fault oracles.  [db_fault n op] is the error raised by the [n]-th
    driver call when it is [op]; [file_fault n f line] the error of the
    [n]-th log append; [smtp_fault k st] the error of stage [st] of the
    [k]-th SMTP session. *)
Record world := {
  env : string -> option string;
  users_table : Z -> option user_row;
  items_table : Z -> option item_row;
  db_fault : nat -> db_op -> option string;
  file_fault : nat -> log_file -> string -> option string;
  smtp_fault : nat -> smtp_stage -> option string }.

Record cursor_st := { c_open : bool; c_rows : list row }.

(** Mutable part: standard output, the two append-only log files, the
    cursors handed out so far (indexed by their number), the rows inserted
    into [Notifications], the driver calls attempted, the number of log
    appends and SMTP sessions attempted, and the network traffic. *)
Record state := mkState {
  stdout : list string;
  email_log : list string;
  crash_log : list string;
  cursors : list cursor_st;
  notifications : list notif;
  db_log : list db_op;
  file_ops : nat;
  smtp_sessions : nat;
  net : list net_event }.

Definition set_stdout (s : state) (l : list string) : state :=
  mkState l (email_log s) (crash_log s) (cursors s) (notifications s) (db_log s)
    (file_ops s) (smtp_sessions s) (net s).
Definition set_email_log (s : state) (l : list string) : state :=
  mkState (stdout s) l (crash_log s) (cursors s) (notifications s) (db_log s)
    (file_ops s) (smtp_sessions s) (net s).
Definition set_crash_log (s : state) (l : list string) : state :=
  mkState (stdout s) (email_log s) l (cursors s) (notifications s) (db_log s)
    (file_ops s) (smtp_sessions s) (net s).
Definition set_cursors (s : state) (l : list cursor_st) : state :=
  mkState (stdout s) (email_log s) (crash_log s) l (notifications s) (db_log s)
    (file_ops s) (smtp_sessions s) (net s).
Definition set_notifications (s : state) (l : list notif) : state :=
  mkState (stdout s) (email_log s) (crash_log s) (cursors s) l (db_log s)
    (file_ops s) (smtp_sessions s) (net s).
Definition set_db_log (s : state) (l : list db_op) : state :=
  mkState (stdout s) (email_log s) (crash_log s) (cursors s) (notifications s) l
    (file_ops s) (smtp_sessions s) (net s).
Definition set_file_ops (s : state) (n : nat) : state :=
  mkState (stdout s) (email_log s) (crash_log s) (cursors s) (notifications s) (db_log s)
    n (smtp_sessions s) (net s).
Definition set_smtp_sessions (s : state) (n : nat) : state :=
  mkState (stdout s) (email_log s) (crash_log s) (cursors s) (notifications s) (db_log s)
    (file_ops s) n (net s).
Definition set_net (s : state) (l : list net_event) : state :=
  mkState (stdout s) (email_log s) (crash_log s) (cursors s) (notifications s) (db_log s)
    (file_ops s) (smtp_sessions s) l.

(** ** The monad: state passing with Python exceptions *)

Definition M (A : Type) : Type := world -> state -> result A * state.

Definition ret {A} (a : A) : M A := fun _ s => (Ok a, s).

Definition bind {A B} (m : M A) (k : A -> M B) : M B :=
  fun w s => match m w s with
             | (Ok a, s') => k a w s'
             | (Raise e, s') => (Raise e, s')
             end.

Definition raise {A} (e : exc) : M A := fun _ s => (Raise e, s).

(** [try: m except Exception as e: h(e)] *)
Definition try_except {A} (m : M A) (h : exc -> M A) : M A :=
  fun w s => match m w s with
             | (Ok a, s') => (Ok a, s')
             | (Raise e, s') => h e w s'
             end.

(** [try: m finally: fin] : the result of [m] unless [fin] raises. *)
Definition try_finally {A} (m : M A) (fin : M unit) : M A :=
  fun w s => let (r, s') := m w s in
             match fin w s' with
             | (Ok _, s'') => (r, s'')
             | (Raise e, s'') => (Raise e, s'')
             end.

Notation "x <- m1 ;; m2" := (bind m1 (fun x => m2))
  (at level 61, m1 at next level, right associativity).
Notation "' p <- m1 ;; m2" := (bind m1 (fun x => match x with p => m2 end))
  (at level 61, p pattern, m1 at next level, right associativity).
Notation "m1 ;; m2" := (bind m1 (fun _ => m2))
  (at level 61, right associativity).

(** ** Formatting helpers *)

Fixpoint digits_rev (fuel : nat) (n : N) (acc : string) : string :=
  match fuel with
  | O => acc
  | S f =>
      let acc' := String (ascii_of_N (48 + N.modulo n 10)) acc in
      if (n <? 10)%N then acc' else digits_rev f (N.div n 10) acc'
  end.

(** [f"{z}"] for an integer [z]. *)
Definition Z_to_dec (z : Z) : string :=
  let n := Z.to_N (Z.abs z) in
  let ds := digits_rev (S (N.size_nat n)) n "" in
  if (z <? 0)%Z then "-" +++ ds else ds.

(** The newline character. *)
Definition nl : string := String (ascii_of_nat 10) "".

(** [', '.join(l)] *)
Fixpoint join (sep : string) (l : list string) : string :=
  match l with
  | [] => ""
  | [x] => x
  | x :: r => x +++ sep +++ join sep r
  end.

(** Python truthiness of an [os.getenv] result: [None] and [""] are false. *)
Definition truthy (v : option string) : bool :=
  match v with None => false | Some s => negb (String.eqb s "") end.

Definition opt_str (v : option string) : string :=
  match v with None => "None" | Some s => s end.

(** [int(s)] for a string [s] (ASCII digits): surrounding whitespace, an
    optional sign, and single underscores between digits are accepted. *)
Definition is_space (c : ascii) : bool :=
  match nat_of_ascii c with 32 | 9 | 10 | 11 | 12 | 13 => true | _ => false end.
Definition is_digit (c : ascii) : bool :=
  Nat.leb 48 (nat_of_ascii c) && Nat.leb (nat_of_ascii c) 57.
Definition digit_val (c : ascii) : Z := Z.of_nat (nat_of_ascii c - 48).

Fixpoint strip_left (l : list ascii) : list ascii :=
  match l with c :: r => if is_space c then strip_left r else l | [] => [] end.
Definition strip (l : list ascii) : list ascii := rev (strip_left (rev (strip_left l))).

Fixpoint parse_digits (l : list ascii) (acc : Z) (after_us : bool) : option Z :=
  match l with
  | [] => if after_us then None else Some acc
  | c :: r =>
      if is_digit c then parse_digits r (acc * 10 + digit_val c)%Z false
      else if Ascii.eqb c "_" && negb after_us then parse_digits r acc true
      else None
  end.

Definition parse_unsigned (l : list ascii) : option Z :=
  match l with
  | c :: r => if is_digit c then parse_digits r (digit_val c) false else None
  | [] => None
  end.

Definition py_int (s : string) : option Z :=
  match strip (list_ascii_of_string s) with
  | c :: r =>
      if Ascii.eqb c "-" then option_map Z.opp (parse_unsigned r)
      else if Ascii.eqb c "+" then parse_unsigned r
      else parse_unsigned (c :: r)
  | [] => None
  end.

(** ** Primitive effects *)

Definition getenv (k : string) : M (option string) := fun w s => (Ok (env w k), s).

(** [print(line)] *)
Definition print (line : string) : M unit :=
  fun _ s => (Ok tt, set_stdout s (stdout s ++ [line])).

(** [with open(f, "a") as fh: fh.write(line + "\n")] *)
Definition append_line (f : log_file) (line : string) : M unit :=
  fun w s =>
    let s1 := set_file_ops s (S (file_ops s)) in
    match file_fault w (file_ops s) f line with
    | Some m => (Raise (Exc OSError m), s1)
    | None =>
        (Ok tt, match f with
                | EmailDebugLog => set_email_log s1 (email_log s1 ++ [line])
                | CrashDebugLog => set_crash_log s1 (crash_log s1 ++ [line])
                end)
    end.

(** A driver call: recorded, then it may raise. *)
Definition db_attempt (op : db_op) : M unit :=
  fun w s =>
    let s1 := set_db_log s (db_log s ++ [op]) in
    match db_fault w (length (db_log s)) op with
    | Some m => (Raise (Exc DbError m), s1)
    | None => (Ok tt, s1)
    end.

Fixpoint update_nth {A} (n : nat) (f : A -> A) (l : list A) : list A :=
  match l, n with
  | [], _ => []
  | x :: r, O => f x :: r
  | x :: r, S n' => x :: update_nth n' f r
  end.

Definition closed_cursor_exc : exc := Exc DbError "Cursor is not connected".

(** [db.get_cursor(dictionary=...)]: a fresh open cursor. *)
Definition db_get_cursor (dictionary : bool) : M nat :=
  db_attempt (GetCursor dictionary);;
  fun _ s => (Ok (length (cursors s)),
              set_cursors s (cursors s ++ [{| c_open := true; c_rows := [] |}])).

(** Effect of a statement that the server accepted. *)
Definition run_query (w : world) (c : nat) (q : query) (s : state) : state :=
  match q with
  | SelectUser uid =>
      let rows := match users_table w uid with Some u => [RUser u] | None => [] end in
      set_cursors s (update_nth c (fun cs => {| c_open := c_open cs; c_rows := rows |}) (cursors s))
  | SelectItem iid =>
      let rows := match items_table w iid with Some i => [RItem i] | None => [] end in
      set_cursors s (update_nth c (fun cs => {| c_open := c_open cs; c_rows := rows |}) (cursors s))
  | InsertNotif n => set_notifications s (notifications s ++ [n])
  end.

(** Run [k] on the state of an open cursor [c]; a closed cursor raises. *)
Definition with_open_cursor {A} (c : nat) (k : cursor_st -> M A) : M A :=
  fun w s => match nth_error (cursors s) c with
             | Some cs => if c_open cs then k cs w s else (Raise closed_cursor_exc, s)
             | None => (Raise closed_cursor_exc, s)
             end.

(** [cursor.execute(q, params)] *)
Definition cursor_execute (c : nat) (q : query) : M unit :=
  db_attempt (Execute c q);;
  with_open_cursor c (fun _ w s => (Ok tt, run_query w c q s)).

(** [cursor.fetchone()] *)
Definition cursor_fetchone (c : nat) : M (option row) :=
  db_attempt (FetchOne c);;
  with_open_cursor c (fun cs _ s =>
    match c_rows cs with
    | [] => (Ok None, s)
    | r :: rest =>
        (Ok (Some r),
         set_cursors s (update_nth c (fun cs' => {| c_open := c_open cs'; c_rows := rest |})
                                   (cursors s)))
    end).

(** [cursor.close()] *)
Definition cursor_close (c : nat) : M unit :=
  db_attempt (CloseCursor c);;
  fun _ s => (Ok tt, set_cursors s (update_nth c (fun cs => {| c_open := false; c_rows := [] |})
                                                (cursors s))).

(** [db.conn.commit()] *)
Definition db_commit : M unit := db_attempt Commit.

(** [db.close()]: closes the thread-local connection. *)
Definition db_close : M unit := db_attempt CloseConn.

(** [smtplib.SMTP(...)] starts the next session. *)
Definition smtp_open : M nat :=
  fun _ s => (Ok (smtp_sessions s), set_smtp_sessions s (S (smtp_sessions s))).

(** One call of session [k]: the traffic happens, then the call may raise. *)
Definition smtp_step (k : nat) (st : smtp_stage) (ev : net_event) : M unit :=
  fun w s =>
    let s1 := set_net s (net s ++ [ev]) in
    match smtp_fault w k st with
    | Some m => (Raise (Exc SmtpError m), s1)
    | None => (Ok tt, s1)
    end.

(** ** The module *)

(** [get_user_email(user_id, cursor=None)] (lines 14-36). *)
Definition get_user_email (user_id : Z) (cursor : option nat) : M (option row) :=
  '(c, should_close) <-
    match cursor with
    | None => c <- db_get_cursor true;; ret (c, true)
    | Some c => ret (c, false)
    end;;
  try_except
    (cursor_execute c (SelectUser user_id);;
     user <- cursor_fetchone c;;
     (if should_close then cursor_close c else ret tt);;
     match user with
     | None => print ("Warning: User with ID " +++ Z_to_dec user_id +++ " not found.");; ret None
     | Some u => ret (Some u)
     end)
    (fun e =>
       print ("Error fetching user " +++ Z_to_dec user_id +++ ": " +++ exc_text e);;
       (if should_close then try_except (cursor_close c) (fun _ => ret tt) else ret tt);;
       ret None).

(** The keys [send_email] reports as missing (lines 47-51). *)
Definition missing_keys (sender_email email_host email_user email_pass : option string)
  : list string :=
  (if negb (truthy sender_email) then ["EMAIL_SENDER"] else []) ++
  (if negb (truthy email_host) then ["EMAIL_HOST"] else []) ++
  (if negb (truthy email_user) then ["EMAIL_USER"] else []) ++
  (if negb (truthy email_pass) then ["EMAIL_PASS"] else []).

(** [MIMEMultipart] with the three headers and a plain-text part, rendered
    by [msg.as_string()] (lines 56-60). *)
Definition mime_as_string (sender recipient subject body : string) : string :=
  "From: " +++ sender +++ " To: " +++ recipient +++ " Subject: " +++ subject +++
  " Content-Type: text/plain " +++ body.

(** [int(os.getenv('EMAIL_PORT', 587))] *)
Definition email_port : M Z :=
  p <- getenv "EMAIL_PORT";;
  match p with
  | None => ret 587%Z
  | Some v =>
      match py_int v with
      | Some z => ret z
      | None => raise (Exc ValueError ("invalid literal for int() with base 10: '" +++ v +++ "'"))
      end
  end.

(** The audit line written when sending fails (line 72). *)
Definition send_error_line (recipient_email : string) (e : exc) : string :=
  "ERROR sending email to " +++ recipient_email +++ ": " +++ exc_text e.

(** [send_email(recipient_email, subject, body)] (lines 38-76). *)
Definition send_email (recipient_email subject body : string) : M bool :=
  sender_email <- getenv "EMAIL_SENDER";;
  email_host <- getenv "EMAIL_HOST";;
  email_user <- getenv "EMAIL_USER";;
  email_pass <- getenv "EMAIL_PASS";;
  if negb (forallb truthy [sender_email; email_host; email_user; email_pass]) then
    let missing := missing_keys sender_email email_host email_user email_pass in
    print ("Email credentials not configured. Missing: " +++ join ", " missing);;
    print ("Would have sent to " +++ recipient_email +++ ": " +++ subject);;
    ret true
  else
    let msg := mime_as_string (opt_str sender_email) recipient_email subject body in
    try_except
      (host <- getenv "EMAIL_HOST";;
       port <- email_port;;
       server <- smtp_open;;
       smtp_step server SConnect (NetConnect (opt_str host) port);;
       smtp_step server SStartTls NetStartTls;;
       u <- getenv "EMAIL_USER";;
       pw <- getenv "EMAIL_PASS";;
       smtp_step server SLogin (NetLogin (opt_str u) (opt_str pw));;
       smtp_step server SSendMail (NetSendMail (opt_str sender_email) recipient_email msg);;
       smtp_step server SQuit NetQuit;;
       append_line EmailDebugLog ("SUCCESS: Sent to " +++ recipient_email);;
       ret true)
      (fun e =>
         let error_msg := send_error_line recipient_email e in
         print error_msg;;
         append_line EmailDebugLog error_msg;;
         ret false).

(** [insert_notification(user_id, message, notification_type)] (lines 78-86). *)
Definition insert_notification (user_id : Z) (message notification_type : string) : M unit :=
  cursor <- db_get_cursor false;;
  cursor_execute cursor
    (InsertNotif {| n_user_id := user_id; n_message := message;
                    n_type := notification_type; n_status := Notification_STATUSES_SENT |});;
  db_commit;;
  cursor_close cursor.

(** [log_debug(msg)] (lines 88-90). *)
Definition log_debug (msg : string) : M unit := append_line CrashDebugLog msg.

(** The send-then-log block that [send_claim_resolved_emails] runs once for
    the reporter (lines 136-147, [who = "reporter"]) and once for the
    claimant (lines 154-165, [who = "claimant"]). *)
Definition email_then_log (who recipient subject body : string) (user_id : Z) (message : string)
  : M unit :=
  ok <- send_email recipient subject body;;
  if ok then
    try_except
      (log_debug ("Inserting notification for " +++ who +++ "...");;
       cursor_notif <- db_get_cursor false;;
       cursor_execute cursor_notif
         (InsertNotif {| n_user_id := user_id; n_message := message;
                         n_type := Notification_TYPES_EMAIL;
                         n_status := Notification_STATUSES_SENT |});;
       db_commit;;
       cursor_close cursor_notif;;
       log_debug "Notification inserted.")
      (fun e =>
         print ("Error inserting notification: " +++ exc_text e);;
         log_debug ("Error inserting notification: " +++ exc_text e))
  else ret tt.

Definition reporter_message : string :=
  "Item successfully matched and resolved. Check your email for details!".
Definition claimant_message : string :=
  "Claim approved. Check your email for reporter's contact info.".

(** The body of the [try] of [send_claim_resolved_emails] (lines 100-165). *)
Definition resolve_body (item_id claimant_id admin_id : Z) : M unit :=
  log_debug "Getting cursor from thread-local db...";;
  cursor <- db_get_cursor true;;
  log_debug "Fetching item info...";;
  cursor_execute cursor (SelectItem item_id);;
  item_info <- cursor_fetchone cursor;;
  match item_info with
  | None =>
      print ("Warning: Item with ID " +++ Z_to_dec item_id +++ " not found.");;
      log_debug "Item not found.";;
      cursor_close cursor
  | Some info =>
      let reporter_id := row_reported_by info in
      let item_title := row_title info in
      log_debug ("Fetching reporter " +++ Z_to_dec reporter_id +++ "...");;
      reporter <- get_user_email reporter_id (Some cursor);;
      log_debug ("Fetching claimant " +++ Z_to_dec claimant_id +++ "...");;
      claimant <- get_user_email claimant_id (Some cursor);;
      log_debug "Closing cursor...";;
      cursor_close cursor;;
      match reporter, claimant with
      | Some reporter, Some claimant =>
          let reporter_subject :=
            "SUCCESS: Your Item '" +++ item_title +++ "' Has Been RESOLVED!" in
          let reporter_body :=
            "Hello " +++ row_name reporter +++ "," +++ nl +++ nl +++ "Good news! Your item, '" +++ item_title +++
            "', has been verified by the Admin (ID: " +++ Z_to_dec admin_id +++
            ") and matched with the person who found it. Please contact the claimant, " +++
            row_name claimant +++
            ", to arrange collection. Your contact details have been shared with them." in
          log_debug "Sending email to reporter...";;
          email_then_log "reporter" (row_email reporter) reporter_subject reporter_body
            reporter_id reporter_message;;
          let claimant_subject :=
            "SUCCESS: Your Claim on '" +++ item_title +++ "' Has Been APPROVED!" in
          let claimant_body :=
            "Hello " +++ row_name claimant +++ "," +++ nl +++ nl +++ "Your claim on '" +++ item_title +++
            "' has been successfully approved! Please contact the original reporter, " +++
            row_name reporter +++ ", to arrange the return of the item. Their email is " +++
            row_email reporter +++ "." in
          log_debug "Sending email to claimant...";;
          email_then_log "claimant" (row_email claimant) claimant_subject claimant_body
            claimant_id claimant_message
      | _, _ =>
          print "Warning: Missing user data for reporter or claimant. Skipping email notifications.";;
          log_debug "Missing user data."
      end
  end.

(** The [except] handler of [send_claim_resolved_emails] (lines 167-169). *)
Definition resolve_handler (e : exc) : M unit :=
  print ("Error in send_claim_resolved_emails (background): " +++ exc_text e);;
  log_debug ("CRASH: " +++ exc_text e).

(** [send_claim_resolved_emails(item_id, claimant_id, admin_id)] (lines 92-172). *)
Definition send_claim_resolved_emails (item_id claimant_id admin_id : Z) : M unit :=
  log_debug ("Starting send_claim_resolved_emails for Item " +++ Z_to_dec item_id);;
  try_finally
    (try_except (resolve_body item_id claimant_id admin_id) resolve_handler)
    db_close.

(** ** Specification helpers *)

(** The four values [send_email] requires (line 46). *)
Definition required_keys : list string :=
  ["EMAIL_SENDER"; "EMAIL_HOST"; "EMAIL_USER"; "EMAIL_PASS"].

Definition config_complete (w : world) : bool :=
  forallb (fun k => truthy (env w k)) required_keys.

(** The error of the first failing call of SMTP session [k], if any. *)
Definition smtp_first_fault (w : world) (k : nat) : option string :=
  match smtp_fault w k SConnect with
  | Some m => Some m
  | None =>
    match smtp_fault w k SStartTls with
    | Some m => Some m
    | None =>
      match smtp_fault w k SLogin with
      | Some m => Some m
      | None =>
        match smtp_fault w k SSendMail with
        | Some m => Some m
        | None => smtp_fault w k SQuit
        end
      end
    end
  end.

(** [EMAIL_PORT] is unset or holds an integer literal. *)
Definition port_ok (w : world) : bool :=
  match env w "EMAIL_PORT" with
  | None => true
  | Some v => match py_int v with Some _ => true | None => false end
  end.

(** The rows of the INSERT statements among attempted driver calls. *)
Fixpoint insert_attempts (l : list db_op) : list notif :=
  match l with
  | [] => []
  | Execute _ (InsertNotif n) :: r => n :: insert_attempts r
  | _ :: r => insert_attempts r
  end.

(** The Notifications row of the send-then-log block. *)
Definition email_row (user_id : Z) (message : string) : notif :=
  {| n_user_id := user_id; n_message := message;
     n_type := Notification_TYPES_EMAIL; n_status := Notification_STATUSES_SENT |}.

Definition no_faults (w : world) : Prop :=
  (forall n op, db_fault w n op = None) /\ (forall n f line, file_fault w n f line = None).

(** [s1] agrees with [s] on the database and on [crash_debug.log]. *)
Definition frame (s s1 : state) : Prop :=
  notifications s1 = notifications s /\ db_log s1 = db_log s /\
  cursors s1 = cursors s /\ crash_log s1 = crash_log s.

(** Running [m] adds at most [n] to the measure [f] of the state, in every
    world and from every state. *)
Definition grows_by (f : state -> nat) (n : nat) {A} (m : M A) : Prop :=
  forall w s, f (snd (m w s)) <= f s + n.

(** A row of the Notifications table the workflow may write for
    [claimant_id]: type EMAIL, status SENT, and either the claimant's
    message for [claimant_id] or the reporter's message. *)
Definition workflow_row (claimant_id : Z) (n : notif) : bool :=
  String.eqb (n_type n) Notification_TYPES_EMAIL &&
  String.eqb (n_status n) Notification_STATUSES_SENT &&
  ((String.eqb (n_message n) claimant_message && Z.eqb (n_user_id n) claimant_id) ||
   String.eqb (n_message n) reporter_message).

(** The number of Notifications rows that are not of that shape. *)
Definition other_rows (claimant_id : Z) (s : state) : nat :=
  length (filter (fun n => negb (workflow_row claimant_id n)) (notifications s)).

Definition row_count (s : state) : nat := length (notifications s).

Definition cursor_count (s : state) : nat := length (cursors s).

(** [m] leaves the Notifications table, or the SMTP session counter, as it is. *)
Definition keeps_db {A} (m : M A) : Prop :=
  forall w s, notifications (snd (m w s)) = notifications s.
Definition keeps_smtp {A} (m : M A) : Prop :=
  forall w s, smtp_sessions (snd (m w s)) = smtp_sessions s.

(** The Notifications rows of [s'] are those of [s] followed by new ones. *)
Definition extends (s s' : state) : Prop := exists l, notifications s' = notifications s ++ l.
Definition appends {A} (m : M A) : Prop := forall w s, extends s (snd (m w s)).

(** ** Sample worlds *)

(** A complete mail configuration; [EMAIL_PORT] unset. *)
Definition env_full (k : string) : option string :=
  if String.eqb k "EMAIL_SENDER" then Some "noreply@back2u.test"
  else if String.eqb k "EMAIL_HOST" then Some "smtp.back2u.test"
  else if String.eqb k "EMAIL_USER" then Some "mailer"
  else if String.eqb k "EMAIL_PASS" then Some "secret"
  else None.

(** No mail configuration at all. *)
Definition env_empty (k : string) : option string := None.

(** Users 1 (Alice) and 2 (Bob); item 42, "Blue Backpack", reported by 1. *)
Definition sample_users (u : Z) : option user_row :=
  if Z.eqb u 1 then Some {| email := "alice@back2u.test"; name := "Alice" |}
  else if Z.eqb u 2 then Some {| email := "bob@back2u.test"; name := "Bob" |}
  else None.
Definition sample_items (i : Z) : option item_row :=
  if Z.eqb i 42 then Some {| reported_by := 1; title := "Blue Backpack" |} else None.

Definition sample_world (e : string -> option string) (df : nat -> db_op -> option string)
    (ff : nat -> log_file -> string -> option string) (sf : nat -> smtp_stage -> option string)
  : world :=
  {| env := e; users_table := sample_users; items_table := sample_items;
     db_fault := df; file_fault := ff; smtp_fault := sf |}.

Definition no_db_fault (_ : nat) (_ : db_op) : option string := None.
Definition no_file_fault (_ : nat) (_ : log_file) (_ : string) : option string := None.
Definition no_smtp_fault (_ : nat) (_ : smtp_stage) : option string := None.

(** The state of a fresh process. *)
Definition init_state : state := mkState [] [] [] [] [] [] 0 0 [].

(** SMTP session 0 is refused when connecting; later sessions go through. *)
Definition smtp_refuse_first (k : nat) (st : smtp_stage) : option string :=
  match k, st with
  | O, SConnect => Some "[Errno 111] Connection refused"
  | _, _ => None
  end.

(** A complete mail configuration with [EMAIL_PORT=smtp]. *)
Definition env_bad_port (k : string) : option string :=
  if String.eqb k "EMAIL_PORT" then Some "smtp" else env_full k.

(** Every INSERT of a row for user 1 hits a deadlock. *)
Definition insert_deadlock_user1 (_ : nat) (op : db_op) : option string :=
  match op with
  | Execute _ (InsertNotif n) =>
      if Z.eqb (n_user_id n) 1 then Some "Deadlock found when trying to get lock" else None
  | _ => None
  end.

(** The disk holding [crash_debug.log] is full. *)
Definition crash_log_full (_ : nat) (f : log_file) (_ : string) : option string :=
  match f with
  | CrashDebugLog => Some "[Errno 28] No space left on device"
  | EmailDebugLog => None
  end.

(** The item query loses the server connection. *)
Definition item_query_lost (_ : nat) (op : db_op) : option string :=
  match op with
  | Execute _ (SelectItem _) => Some "Lost connection to MySQL server during query"
  | _ => None
  end.

(** No cursor can be opened. *)
Definition no_connection (_ : nat) (op : db_op) : option string :=
  match op with
  | GetCursor _ => Some "Too many connections"
  | _ => None
  end.

Definition w_unconfigured : world :=
  sample_world env_empty no_db_fault no_file_fault no_smtp_fault.
Definition w_healthy : world :=
  sample_world env_full no_db_fault no_file_fault no_smtp_fault.
Definition w_refused : world :=
  sample_world env_full no_db_fault no_file_fault smtp_refuse_first.
Definition w_bad_port : world :=
  sample_world env_bad_port no_db_fault no_file_fault no_smtp_fault.

(** ** Proofs *)

Ltac unfold_monad :=
  unfold bind, ret, raise, try_except, try_finally, getenv, print in *.

Lemma config_complete_split (w : world) :
  config_complete w = true ->
  truthy (env w "EMAIL_SENDER") = true /\ truthy (env w "EMAIL_HOST") = true /\
  truthy (env w "EMAIL_USER") = true /\ truthy (env w "EMAIL_PASS") = true.
Proof.
  unfold config_complete, required_keys; simpl.
  intros H; repeat (apply andb_prop in H as [? H]); rewrite ?andb_true_r in *; auto.
Qed.

(** Under a complete configuration [send_email] is its guarded transport
    block. *)
Lemma send_email_configured (w : world) (s : state) (recipient_email subject body : string) :
  config_complete w = true ->
  send_email recipient_email subject body w s =
  try_except
    (host <- getenv "EMAIL_HOST";;
     port <- email_port;;
     server <- smtp_open;;
     smtp_step server SConnect (NetConnect (opt_str host) port);;
     smtp_step server SStartTls NetStartTls;;
     u <- getenv "EMAIL_USER";;
     pw <- getenv "EMAIL_PASS";;
     smtp_step server SLogin (NetLogin (opt_str u) (opt_str pw));;
     smtp_step server SSendMail
       (NetSendMail (opt_str (env w "EMAIL_SENDER")) recipient_email
          (mime_as_string (opt_str (env w "EMAIL_SENDER")) recipient_email subject body));;
     smtp_step server SQuit NetQuit;;
     append_line EmailDebugLog ("SUCCESS: Sent to " +++ recipient_email);;
     ret true)
    (fun e =>
       let error_msg := send_error_line recipient_email e in
       print error_msg;;
       append_line EmailDebugLog error_msg;;
       ret false) w s.
Proof.
  intros H; apply config_complete_split in H as (H1 & H2 & H3 & H4).
  unfold send_email. unfold bind at 1 2 3 4, getenv at 1 2 3 4.
  simpl. rewrite H1, H2, H3, H4. reflexivity.
Qed.

(** Claim C4.  If one of the four required values [EMAIL_SENDER],
    [EMAIL_HOST], [EMAIL_USER], [EMAIL_PASS] is absent (unset or empty),
    [send_email] returns [True] for every recipient, subject and body, and its
    only effect is two diagnostics on standard output, the first listing
    exactly the missing keys: no network traffic, no SMTP session, no log
    file or database access. *)
Theorem send_email_unconfigured (w : world) (s : state) (recipient_email subject body : string) :
  config_complete w = false ->
  send_email recipient_email subject body w s =
  (Ok true,
   set_stdout s
     (stdout s ++
      ["Email credentials not configured. Missing: " +++
         join ", " (filter (fun k => negb (truthy (env w k))) required_keys);
       "Would have sent to " +++ recipient_email +++ ": " +++ subject])).
Proof.
  unfold config_complete, required_keys, send_email, missing_keys; unfold_monad; simpl.
  destruct (truthy (env w "EMAIL_SENDER")), (truthy (env w "EMAIL_HOST")),
    (truthy (env w "EMAIL_USER")), (truthy (env w "EMAIL_PASS"));
    simpl; intros H; try discriminate;
    unfold set_stdout; simpl; rewrite <- app_assoc; reflexivity.
Qed.

(** Claim C3.  With a complete configuration (and an [EMAIL_PORT] that
    parses), if a call of the SMTP session raises with text [err],
    [send_email] does not let that transport exception out: it returns
    [False] after appending exactly one line to [email_debug.log] that holds
    the recipient and [err].  The only exception that can leave it is the
    file-system error of that very append (in which case nothing is
    appended); when the append goes through the result is [False]. *)
Theorem send_email_transport_error (w : world) (s : state)
    (recipient_email subject body err : string) :
  config_complete w = true ->
  port_ok w = true ->
  smtp_first_fault w (smtp_sessions s) = Some err ->
  let line := "ERROR sending email to " +++ recipient_email +++ ": " +++ err in
  let '(r, s') := send_email recipient_email subject body w s in
  match r with
  | Ok b => b = false /\ email_log s' = email_log s ++ [line]
  | Raise e => exc_origin e = OSError /\ email_log s' = email_log s
  end /\
  (file_fault w (file_ops s) EmailDebugLog line = None -> r = Ok false).
Proof.
  intros Hc Hp Hf. rewrite (send_email_configured _ _ _ _ _ Hc).
  unfold port_ok in Hp. unfold smtp_first_fault in Hf.
  unfold email_port, smtp_open, smtp_step, append_line, send_error_line; unfold_monad; simpl.
  destruct (env w "EMAIL_PORT") as [v|]; [destruct (py_int v); [|discriminate]|]; simpl;
  repeat (match goal with
          | |- context [smtp_fault w ?k ?st] =>
              let E := fresh "E" in
              destruct (smtp_fault w k st) eqn:E; try rewrite E in Hf; simpl in Hf;
              [try (injection Hf as <-) | try discriminate]
          end; simpl);
  match goal with
  | |- context [file_fault w ?n EmailDebugLog ?l] =>
      let F := fresh "F" in destruct (file_fault w n EmailDebugLog l) eqn:F
  end; simpl; (split; [auto | intros HF; congruence]).
Qed.

(** Claim C10.  With a complete configuration and an [EMAIL_PORT] that is
    not an integer literal, [int(...)] raises inside the guarded block,
    before any SMTP session starts: no network traffic happens, and the
    [ValueError] is handled like a transport failure, giving [False] and one
    [email_debug.log] line with the recipient and the error text (again
    unless that append itself fails). *)
Theorem send_email_bad_port (w : world) (s : state)
    (recipient_email subject body v : string) :
  config_complete w = true ->
  env w "EMAIL_PORT" = Some v ->
  py_int v = None ->
  let err := "invalid literal for int() with base 10: '" +++ v +++ "'" in
  let line := "ERROR sending email to " +++ recipient_email +++ ": " +++ err in
  let '(r, s') := send_email recipient_email subject body w s in
  net s' = net s /\ smtp_sessions s' = smtp_sessions s /\
  match r with
  | Ok b => b = false /\ email_log s' = email_log s ++ [line]
  | Raise e => exc_origin e = OSError /\ email_log s' = email_log s
  end /\
  (file_fault w (file_ops s) EmailDebugLog line = None -> r = Ok false).
Proof.
  intros Hc Hp Hv. rewrite (send_email_configured _ _ _ _ _ Hc).
  unfold email_port, append_line, send_error_line; unfold_monad; simpl.
  rewrite Hp, Hv; simpl.
  match goal with
  | |- context [file_fault w ?n EmailDebugLog ?l] =>
      let F := fresh "F" in destruct (file_fault w n EmailDebugLog l) eqn:F
  end; simpl; (split; [auto | split; [auto | split; [auto | intros HF; congruence]]]).
Qed.

(** *** Cursor bookkeeping *)

Lemma map_update_nth_keep {A B} (g : A -> B) (n : nat) (f : A -> A) (l : list A) :
  (forall x, g (f x) = g x) -> map g (update_nth n f l) = map g l.
Proof.
  intros Hf; revert n; induction l as [|x l IH]; intros [|n]; simpl; auto.
  - rewrite Hf; reflexivity.
  - rewrite IH; reflexivity.
Qed.

Lemma nth_error_update_nth_eq {A} (n : nat) (f : A -> A) (l : list A) :
  nth_error (update_nth n f l) n = option_map f (nth_error l n).
Proof. revert n; induction l as [|x l IH]; intros [|n]; simpl; auto. Qed.

Lemma length_update_nth {A} (n : nat) (f : A -> A) (l : list A) :
  length (update_nth n f l) = length l.
Proof. revert n; induction l as [|x l IH]; intros [|n]; simpl; auto. Qed.

Lemma nth_error_snoc {A} (l : list A) (x : A) : nth_error (l ++ [x]) (length l) = Some x.
Proof. rewrite nth_error_app2, Nat.sub_diag by lia; reflexivity. Qed.

Lemma update_nth_out {A} (n : nat) (f : A -> A) (l : list A) :
  length l <= n -> update_nth n f l = l.
Proof.
  revert n; induction l as [|x l IH]; intros [|n] H; simpl in *; auto; try lia.
  rewrite IH by lia; reflexivity.
Qed.

Ltac split_goal_match :=
  match goal with
  | |- context [match ?x with _ => _ end] =>
      lazymatch x with
      | context [match _ with _ => _ end] => fail
      | _ => let E := fresh "E" in destruct x eqn:E
      end
  end.

(** Unfold the driver primitives and case on every outcome; [tac] rewrites
    with the hypotheses of the scenario at every step. *)
Ltac run_code_with tac :=
  unfold log_debug, cursor_execute, cursor_fetchone, cursor_close, db_get_cursor,
    db_commit, db_close, db_attempt, with_open_cursor, run_query, append_line,
    email_port, smtp_open, smtp_step, send_error_line in *;
  unfold_monad;
  repeat (simpl; rewrite ?nth_error_snoc, ?nth_error_update_nth_eq in *; simpl in *;
          repeat match goal with
                 | H : nth_error ?l ?n = Some _ |- context [nth_error ?l ?n] => rewrite H; simpl
                 end;
          tac;
          try split_goal_match).

Ltac run_code :=
  unfold log_debug, cursor_execute, cursor_fetchone, cursor_close, db_get_cursor,
    db_commit, db_close, db_attempt, with_open_cursor, run_query, append_line,
    email_port, smtp_open, smtp_step, send_error_line in *;
  unfold_monad;
  repeat (simpl; rewrite ?nth_error_snoc, ?nth_error_update_nth_eq in *; simpl in *;
          repeat match goal with
                 | H : nth_error ?l ?n = Some _ |- context [nth_error ?l ?n] => rewrite H; simpl
                 end;
          try split_goal_match).

(** Claim C9.  [get_user_email] never changes whether a cursor passed in by
    its caller is open (it never closes it); when it opens its own cursor,
    [close()] on that cursor is called before it returns on every path, so
    the cursor is closed unless [close()] itself fails; and when opening the
    cursor fails, no cursor has been created. *)
Theorem get_user_email_cursor_ownership (w : world) (s : state) (user_id : Z)
    (cursor : option nat) :
  let '(r, s') := get_user_email user_id cursor w s in
  match cursor with
  | Some c => map c_open (cursors s') = map c_open (cursors s)
  | None =>
      let c := length (cursors s) in
      match r with
      | Raise _ => cursors s' = cursors s
      | Ok _ =>
          In (CloseCursor c) (db_log s') /\
          ((forall n, db_fault w n (CloseCursor c) = None) ->
           exists cs, nth_error (cursors s') c = Some cs /\ c_open cs = false)
      end
  end.
Proof.
  unfold get_user_email; destruct cursor as [c|]; run_code;
    rewrite ?map_update_nth_keep by reflexivity; auto;
    try (split; [rewrite ?in_app_iff; simpl; tauto | intros Hn]);
    try (eexists; split; [reflexivity | reflexivity]);
    try (exfalso; rewrite Hn in *; discriminate).
Qed.

(** Claim C8 (amended).  When a cursor is passed in, or opening its own
    cursor succeeds, [get_user_email] raises nothing: it returns a value; a
    [None] result always comes with exactly one diagnostic line, the
    not-found warning or an ["Error fetching user <id>: <error>"] line; a
    user id absent from [Users] gives [None], with the not-found warning when
    no driver call fails and the cursor passed in (if any) is open; and a
    failing [SELECT] gives [None] with the ["Error fetching user"] line of its
    error.  (Opening its own cursor, line 18, is outside the [try]: that
    failure propagates, see [get_user_email_cursor_failure_raises].) *)
Theorem get_user_email_absent (w : world) (s : state) (user_id : Z) (cursor : option nat) :
  (cursor = None -> db_fault w (length (db_log s)) (GetCursor true) = None) ->
  let c := match cursor with Some c => c | None => length (cursors s) end in
  let k := (length (db_log s) + match cursor with Some _ => 0 | None => 1 end)%nat in
  let warning := "Warning: User with ID " +++ Z_to_dec user_id +++ " not found." in
  let error e := "Error fetching user " +++ Z_to_dec user_id +++ ": " +++ exc_text e in
  let '(r, s') := get_user_email user_id cursor w s in
  (exists v, r = Ok v) /\
  (r = Ok None ->
   stdout s' = stdout s ++ [warning] \/ exists e, stdout s' = stdout s ++ [error e]) /\
  (users_table w user_id = None -> r = Ok None) /\
  (users_table w user_id = None -> (forall n op, db_fault w n op = None) ->
   (forall c0, cursor = Some c0 ->
    exists cs, nth_error (cursors s) c0 = Some cs /\ c_open cs = true) ->
   stdout s' = stdout s ++ [warning]) /\
  (forall m, db_fault w k (Execute c (SelectUser user_id)) = Some m ->
   r = Ok None /\ stdout s' = stdout s ++ [error (Exc DbError m)]).
Proof.
  intros H; unfold get_user_email; destruct cursor as [c|];
    [clear H | specialize (H eq_refl)]; run_code;
    rewrite ?length_app in *; simpl in *; rewrite ?Nat.add_0_r, ?Nat.add_1_r in *;
    repeat split; intros; try congruence; eauto;
    try (right; refine (ex_intro _ (Exc DbError _) eq_refl));
    repeat match goal with
           | H : forall n op, db_fault w n op = None |- _ => rewrite H in *; clear H
           | H : forall c0, Some ?c = Some c0 -> _ |- _ =>
               specialize (H c eq_refl) as (? & ? & ?)
           | H : nth_error ?l ?n = Some _, H' : nth_error ?l ?n = _ |- _ =>
               rewrite H in H'
           end;
    repeat match goal with H : Some _ = Some _ |- _ => injection H as H; subst end;
    try congruence; eauto.
Qed.

Lemma insert_attempts_app (l1 l2 : list db_op) :
  insert_attempts (l1 ++ l2) = insert_attempts l1 ++ insert_attempts l2.
Proof.
  induction l1 as [|[] l1 IH]; simpl; rewrite ?IH; auto.
  match goal with |- context [match ?q with _ => _ end] => destruct q end; auto.
Qed.

(** [send_email] does not touch the database or the trace log. *)
Lemma send_email_frame (w : world) (s : state) (recipient_email subject body : string) :
  let '(_, s') := send_email recipient_email subject body w s in
  notifications s' = notifications s /\ db_log s' = db_log s /\
  cursors s' = cursors s /\ crash_log s' = crash_log s.
Proof. unfold send_email; run_code; auto. Qed.

(** [send_email] raises only when appending to [email_debug.log] fails. *)
Lemma send_email_returns (w : world) (s : state) (recipient_email subject body : string) :
  (forall n line, file_fault w n EmailDebugLog line = None) ->
  exists b, fst (send_email recipient_email subject body w s) = Ok b.
Proof.
  intros Hf; unfold send_email; run_code; rewrite ?Hf in *; try discriminate; eauto.
Qed.

Ltac close_lists :=
  rewrite ?insert_attempts_app in *; simpl in *; rewrite ?app_nil_r in *.

(** Claim C1 (amended).  In the send-then-log block that
    [send_claim_resolved_emails] runs for the reporter and for the claimant:
    when [send_email] returns [False] or raises, no INSERT is attempted and
    no Notifications row is created; when it returns [True], at most one
    INSERT (of the EMAIL/SENT row of that user) is attempted and at most that
    one row is created, and exactly that row is created when no database or
    log operation fails. *)
Theorem email_then_log_rows (w : world) (s : state) (who recipient subject body : string)
    (user_id : Z) (message : string) :
  let row := email_row user_id message in
  let '(sent, _) := send_email recipient subject body w s in
  let '(_, s') := email_then_log who recipient subject body user_id message w s in
  (sent <> Ok true ->
     notifications s' = notifications s /\
     insert_attempts (db_log s') = insert_attempts (db_log s)) /\
  (sent = Ok true ->
     (notifications s' = notifications s \/ notifications s' = notifications s ++ [row]) /\
     (insert_attempts (db_log s') = insert_attempts (db_log s) \/
      insert_attempts (db_log s') = insert_attempts (db_log s) ++ [row])) /\
  (sent = Ok true -> no_faults w ->
     notifications s' = notifications s ++ [row] /\
     insert_attempts (db_log s') = insert_attempts (db_log s) ++ [row]).
Proof.
  pose proof (send_email_frame w s recipient subject body) as Hf.
  unfold email_then_log, email_row; unfold bind at 1.
  destruct (send_email recipient subject body w s) as [[[|]|e] s1].
  - destruct Hf as (Hn & Hd & Hc & _). run_code; close_lists; rewrite ?Hn, ?Hd;
      repeat split; intros; try congruence; auto;
      try match goal with H : no_faults w |- _ =>
            destruct H as [Hdb Hfl]; exfalso; rewrite ?Hdb, ?Hfl in *; congruence end.
  - destruct Hf as (Hn & Hd & _). simpl; rewrite Hn, Hd; repeat split; intros; congruence.
  - destruct Hf as (Hn & Hd & _). simpl; rewrite Hn, Hd; repeat split; intros; congruence.
Qed.

(** Claim C5 (amended).  [insert_notification(user_id, message, type)]
    takes no status: it writes [status = SENT].  When the driver raises
    nothing it opens a cursor, executes exactly one INSERT of that row,
    commits at once and closes the cursor.  It catches nothing and prints
    nothing: every failure is a database exception raised to its caller. *)
Theorem insert_notification_spec (w : world) (s : state) (user_id : Z)
    (message notification_type : string) :
  let row := {| n_user_id := user_id; n_message := message; n_type := notification_type;
                n_status := Notification_STATUSES_SENT |} in
  let c := length (cursors s) in
  let '(r, s') := insert_notification user_id message notification_type w s in
  stdout s' = stdout s /\
  ((forall n op, db_fault w n op = None) ->
     r = Ok tt /\ notifications s' = notifications s ++ [row] /\
     db_log s' = db_log s ++ [GetCursor false; Execute c (InsertNotif row); Commit; CloseCursor c]) /\
  (forall e, r = Raise e -> exc_origin e = DbError).
Proof.
  unfold insert_notification; run_code; rewrite <- ?app_assoc;
    repeat split; intros; try congruence; auto;
    try match goal with H : forall n op, db_fault w n op = None |- _ =>
          exfalso; rewrite ?H in *; congruence end;
    try match goal with H : Raise _ = Raise _ |- _ => injection H as <-; reflexivity end.
Qed.

(** Claim C2 (amended).  As long as appending to [crash_debug.log] and the
    final [db.close()] do not fail, [send_claim_resolved_emails] returns
    normally for every input, whatever the database, the mail transport or
    [email_debug.log] raise; an exception of the [try] body is printed and
    logged as a ["CRASH: ..."] line. *)
Theorem send_claim_resolved_emails_no_escape (w : world) (s : state)
    (item_id claimant_id admin_id : Z) :
  (forall n line, file_fault w n CrashDebugLog line = None) ->
  (forall n, db_fault w n CloseConn = None) ->
  let '(r, s') := send_claim_resolved_emails item_id claimant_id admin_id w s in
  r = Ok tt /\
  (forall s1 e s2,
     log_debug ("Starting send_claim_resolved_emails for Item " +++ Z_to_dec item_id) w s
       = (Ok tt, s1) ->
     resolve_body item_id claimant_id admin_id w s1 = (Raise e, s2) ->
     crash_log s' = crash_log s2 ++ ["CRASH: " +++ exc_text e] /\
     stdout s' = stdout s2 ++ ["Error in send_claim_resolved_emails (background): " +++ exc_text e]).
Proof.
  intros Hf Hc. unfold send_claim_resolved_emails, resolve_handler.
  unfold bind at 1; unfold log_debug at 1, append_line at 1. rewrite Hf.
  unfold try_finally, try_except at 1.
  set (s1 := set_crash_log _ _).
  destruct (resolve_body item_id claimant_id admin_id w s1) as [[[]|e] s2] eqn:Hb.
  - unfold db_close, db_attempt; rewrite Hc; split; auto.
    intros s1' e s2' Hl Hb'. unfold log_debug, append_line in Hl; rewrite Hf in Hl.
    injection Hl as <-. unfold s1 in Hb; simpl in Hb, Hb'. congruence.
  - unfold bind, print, log_debug, append_line; simpl. rewrite Hf.
    unfold db_close, db_attempt; simpl; rewrite Hc; split; auto.
    intros s1' e' s2' Hl Hb'. unfold log_debug, append_line in Hl; rewrite Hf in Hl.
    injection Hl as <-. unfold s1 in Hb; simpl in Hb, Hb'. rewrite Hb in Hb'.
    injection Hb' as <- <-. simpl; auto.
Qed.

Lemma smtp_first_fault_none (w : world) (k : nat) :
  smtp_first_fault w k = None ->
  smtp_fault w k SConnect = None /\ smtp_fault w k SStartTls = None /\
  smtp_fault w k SLogin = None /\ smtp_fault w k SSendMail = None /\
  smtp_fault w k SQuit = None.
Proof.
  unfold smtp_first_fault.
  destruct (smtp_fault w k SConnect), (smtp_fault w k SStartTls), (smtp_fault w k SLogin),
    (smtp_fault w k SSendMail), (smtp_fault w k SQuit); intros H; try discriminate; auto.
Qed.

(** *** The whole workflow *)

Lemma send_email_fails_frame (w : world) (s : state) (recipient_email subject body err : string) :
  config_complete w = true -> port_ok w = true ->
  smtp_first_fault w (smtp_sessions s) = Some err ->
  (forall n line, file_fault w n EmailDebugLog line = None) ->
  exists s1, send_email recipient_email subject body w s = (Ok false, s1) /\ frame s s1 /\
    email_log s1 = email_log s ++ ["ERROR sending email to " +++ recipient_email +++ ": " +++ err] /\
    smtp_sessions s1 = S (smtp_sessions s).
Proof.
  intros Hc Hp Hf Hfl. rewrite (send_email_configured _ _ _ _ _ Hc).
  unfold port_ok in Hp. unfold smtp_first_fault in Hf. unfold frame.
  unfold email_port, smtp_open, smtp_step, append_line, send_error_line; unfold_monad; simpl.
  destruct (env w "EMAIL_PORT") as [v|]; [destruct (py_int v); [|discriminate]|]; simpl;
  repeat (match goal with
          | |- context [smtp_fault w ?k ?st] =>
              let E := fresh "E" in
              destruct (smtp_fault w k st) eqn:E; try rewrite E in Hf; simpl in Hf;
              [try (injection Hf as <-) | try discriminate]
          end; simpl);
  rewrite Hfl; simpl; eexists; repeat split; reflexivity.
Qed.

Lemma send_email_succeeds_frame (w : world) (s : state) (recipient_email subject body : string) :
  config_complete w = true -> port_ok w = true ->
  smtp_first_fault w (smtp_sessions s) = None ->
  (forall n line, file_fault w n EmailDebugLog line = None) ->
  exists s1, send_email recipient_email subject body w s = (Ok true, s1) /\ frame s s1 /\
    email_log s1 = email_log s ++ ["SUCCESS: Sent to " +++ recipient_email] /\
    smtp_sessions s1 = S (smtp_sessions s).
Proof.
  intros Hc Hp Hf Hfl. rewrite (send_email_configured _ _ _ _ _ Hc).
  apply smtp_first_fault_none in Hf as (N1 & N2 & N3 & N4 & N5).
  unfold port_ok in Hp. unfold frame.
  unfold email_port, smtp_open, smtp_step, append_line, send_error_line; unfold_monad; simpl.
  destruct (env w "EMAIL_PORT") as [v|]; [destruct (py_int v); [|discriminate]|]; simpl;
  rewrite ?N1, ?N2, ?N3, ?N4, ?N5; simpl; rewrite Hfl; simpl; eexists; repeat split; reflexivity.
Qed.

Lemma send_email_returns_frame (w : world) (s : state) (recipient_email subject body : string) :
  (forall n line, file_fault w n EmailDebugLog line = None) ->
  exists b s1, send_email recipient_email subject body w s = (Ok b, s1) /\ frame s s1.
Proof.
  intros Hfl. pose proof (send_email_frame w s recipient_email subject body) as Hf.
  destruct (send_email_returns w s recipient_email subject body Hfl) as [b Hb].
  destruct (send_email recipient_email subject body w s) as [r s1]; simpl in Hb; subst r.
  exists b, s1; split; [reflexivity | exact Hf].
Qed.

Ltac use_facts :=
  repeat match goal with
         | H : ?f ?x = _ |- context [?f ?x] => is_var x; rewrite H
         end.

Arguments Z_to_dec : simpl never.
Arguments String.append : simpl never.

Lemma resolve_closes_connection (w : world) (s : state) (item_id claimant_id admin_id : Z) :
  file_fault w (file_ops s) CrashDebugLog
    ("Starting send_claim_resolved_emails for Item " +++ Z_to_dec item_id) = None ->
  exists l, db_log (snd (send_claim_resolved_emails item_id claimant_id admin_id w s))
            = l ++ [CloseConn].
Proof.
  intros H0. unfold send_claim_resolved_emails; unfold bind at 1;
    unfold log_debug at 1, append_line at 1.
  rewrite H0. unfold try_finally.
  destruct (try_except (resolve_body item_id claimant_id admin_id) resolve_handler w _)
    as [r1 s1].
  unfold db_close, db_attempt. destruct (db_fault w (length (db_log s1)) CloseConn);
    simpl; eexists; reflexivity.
Qed.

Lemma forallb_closed_map (n : nat) (l : list cursor_st) :
  forallb (fun cs => negb (c_open cs)) (skipn n l) = forallb negb (skipn n (map c_open l)).
Proof.
  revert n; induction l as [|x l IH]; intros [|n]; simpl; auto.
  specialize (IH 0); simpl in IH; rewrite IH; reflexivity.
Qed.

Lemma map_update_nth_close (n : nat) (l : list cursor_st) :
  map c_open (update_nth n (fun _ => {| c_open := false; c_rows := [] |}) l)
  = update_nth n (fun _ => false) (map c_open l).
Proof. revert n; induction l; intros [|n]; simpl; f_equal; auto. Qed.

Lemma update_nth_map_len {A B} (g : A -> B) (f : B -> B) (l : list A) (r : list B) :
  update_nth (length l) f (map g l ++ r) = map g l ++ update_nth 0 f r.
Proof. induction l as [|x l IH]; simpl; rewrite ?IH; reflexivity. Qed.

Lemma skipn_map_len {A B} (g : A -> B) (l : list A) (r : list B) :
  skipn (length l) (map g l ++ r) = r.
Proof. induction l; simpl; auto. Qed.

Lemma get_user_email_borrowed (w : world) (s : state) (user_id : Z) (c : nat) :
  exists v s1, get_user_email user_id (Some c) w s = (Ok v, s1) /\
               map c_open (cursors s1) = map c_open (cursors s).
Proof.
  unfold get_user_email; run_code;
    do 2 eexists; (split; [reflexivity|]); simpl;
    rewrite ?map_update_nth_keep by (intros; reflexivity); reflexivity.
Qed.

Lemma email_then_log_db_ok (w : world) (s : state) (who recipient subject body : string)
    (user_id : Z) (message : string) :
  (forall n op, db_fault w n op = None) ->
  (forall n line, file_fault w n CrashDebugLog line = None) ->
  exists r s1, email_then_log who recipient subject body user_id message w s = (r, s1) /\
    exists tail, map c_open (cursors s1) = map c_open (cursors s) ++ tail /\
                 forallb negb tail = true.
Proof.
  intros Hdb Hfl.
  pose proof (send_email_frame w s recipient subject body) as Hf.
  unfold email_then_log; unfold bind at 1.
  destruct (send_email recipient subject body w s) as [[b|e] s1];
    destruct Hf as (_ & _ & Hc & _).
  - destruct b.
    + run_code_with ltac:(rewrite ?Hdb, ?Hfl in *; simpl in *; try discriminate;
        repeat match goal with H : Some _ = Some _ |- _ => injection H as H; subst end;
        simpl in *; try discriminate).
      do 2 eexists; split; [reflexivity|]; simpl.
      rewrite map_update_nth_close, map_app, Hc, update_nth_map_len.
      eexists; split; [reflexivity | reflexivity].
    + do 2 eexists; split; [reflexivity|]. exists []; rewrite Hc, app_nil_r; auto.
  - do 2 eexists; split; [reflexivity|]. exists []; rewrite Hc, app_nil_r; auto.
Qed.

Ltac flag_facts :=
  repeat progress (simpl;
    rewrite ?map_update_nth_close, ?map_app, ?map_update_nth_keep by (intros; reflexivity);
    repeat match goal with
           | H : map c_open (cursors ?x) = _ |- context [map c_open (cursors ?x)] => rewrite H
           end).

Lemma resolve_body_db_ok (w : world) (s : state) (item_id claimant_id admin_id : Z) :
  (forall n op, db_fault w n op = None) ->
  (forall n line, file_fault w n CrashDebugLog line = None) ->
  exists r s1, resolve_body item_id claimant_id admin_id w s = (r, s1) /\
    exists tail, map c_open (cursors s1) = map c_open (cursors s) ++ tail /\
                 forallb negb tail = true.
Proof.
  intros Hdb Hfl.
  unfold resolve_body.
  run_code_with ltac:(rewrite ?Hdb, ?Hfl in *; simpl in *; try discriminate;
    repeat match goal with H : Some _ = Some _ |- _ => injection H as H; subst end;
    simpl in *; try discriminate;
    try match goal with
        | |- context [get_user_email ?u (Some ?c) w ?st] =>
            let Hg := fresh "Hg" in
            destruct (get_user_email_borrowed w st u c) as (? & ? & Hg & ?); rewrite Hg
        | |- context [email_then_log ?who ?r ?sj ?b ?uid ?msg w ?st] =>
            let He := fresh "He" in
            destruct (email_then_log_db_ok w st who r sj b uid msg Hdb Hfl)
              as (? & ? & He & ? & ? & ?); rewrite He
        end);
  do 2 eexists; (split; [reflexivity|]); flag_facts;
  rewrite ?update_nth_map_len; simpl; rewrite <- ?app_assoc;
  eexists; (split; [reflexivity|]); rewrite ?forallb_app; simpl;
  repeat match goal with H : forallb negb ?t = true |- context [forallb negb ?t] => rewrite H end;
  reflexivity.
Qed.

(** Claim C6.  Item and both users exist, the reporter's send fails in the
    transport and the claimant's succeeds, and no database or log operation
    fails: the run returns normally, two SMTP sessions are opened (the
    claimant's email is still attempted), exactly one Notifications row is
    inserted, the claimant's, [email_debug.log] gets exactly one failure
    line and one success line, the trace log reaches ["Notification
    inserted."] and the connection is closed. *)
Theorem reporter_failure_claimant_success (w : world) (s : state)
    (item_id claimant_id admin_id : Z) (i : item_row) (ru cu : user_row) (err : string) :
  items_table w item_id = Some i ->
  users_table w (reported_by i) = Some ru ->
  users_table w claimant_id = Some cu ->
  config_complete w = true ->
  port_ok w = true ->
  smtp_first_fault w (smtp_sessions s) = Some err ->
  smtp_first_fault w (S (smtp_sessions s)) = None ->
  no_faults w ->
  let '(r, s') := send_claim_resolved_emails item_id claimant_id admin_id w s in
  r = Ok tt /\
  smtp_sessions s' = S (S (smtp_sessions s)) /\
  notifications s' = notifications s ++ [email_row claimant_id claimant_message] /\
  email_log s' = email_log s ++
    ["ERROR sending email to " +++ email ru +++ ": " +++ err;
     "SUCCESS: Sent to " +++ email cu] /\
  crash_log s' = crash_log s ++
    ["Starting send_claim_resolved_emails for Item " +++ Z_to_dec item_id;
     "Getting cursor from thread-local db..."; "Fetching item info...";
     "Fetching reporter " +++ Z_to_dec (reported_by i) +++ "...";
     "Fetching claimant " +++ Z_to_dec claimant_id +++ "...";
     "Closing cursor..."; "Sending email to reporter..."; "Sending email to claimant...";
     "Inserting notification for claimant..."; "Notification inserted."] /\
  (exists l, db_log s' = l ++ [CloseConn]).
Proof.
  intros Hi Hru Hcu Hc Hp Hs1 Hs2 [Hdb Hfl].
  assert (HflE : forall n line, file_fault w n EmailDebugLog line = None) by auto.
  unfold send_claim_resolved_emails, resolve_body, resolve_handler, get_user_email,
    email_then_log, email_row.
  run_code_with ltac:(rewrite ?Hdb, ?Hfl, ?Hi, ?Hru, ?Hcu in *; simpl in *;
    try discriminate;
    repeat match goal with H : Some _ = Some _ |- _ => injection H as H; subst end;
    simpl in *; try discriminate;
    try match goal with
        | |- context [send_email ?r ?sj ?b w ?st] =>
            first
              [ let s1 := fresh "s" in let Hs := fresh "Hs" in
                destruct (send_email_fails_frame w st r sj b _ Hc Hp ltac:(simpl; eassumption) HflE)
                  as (s1 & Hs & (? & ? & ? & ?) & ? & ?); rewrite Hs
              | let s1 := fresh "s" in let Hs := fresh "Hs" in
                destruct (send_email_succeeds_frame w st r sj b Hc Hp
                            ltac:(simpl in *; congruence) HflE)
                  as (s1 & Hs & (? & ? & ? & ?) & ? & ?); rewrite Hs ]
        end;
    use_facts);
  repeat split; try (eexists; reflexivity); rewrite <- ?app_assoc; reflexivity.
Qed.

(** Claim C7 (amended).  Once the first trace line is written (line 97,
    outside the [try]), [db.close()] is the last driver call of every run,
    whatever happens in the body; and when no database operation and no
    write to the trace log fails, every cursor opened by the run is closed
    when it returns, whether the body completes or raises into the [except]
    clause (a mail or [email_debug.log] failure).  (When a database call
    raises between [db.get_cursor] and [cursor.close()], that cursor stays
    open: see [resolve_leaves_cursor_open].) *)
Theorem send_claim_resolved_emails_release (w : world) (s : state)
    (item_id claimant_id admin_id : Z) :
  file_fault w (file_ops s) CrashDebugLog
    ("Starting send_claim_resolved_emails for Item " +++ Z_to_dec item_id) = None ->
  let s' := snd (send_claim_resolved_emails item_id claimant_id admin_id w s) in
  (exists l, db_log s' = l ++ [CloseConn]) /\
  ((forall n op, db_fault w n op = None) ->
   (forall n line, file_fault w n CrashDebugLog line = None) ->
   forallb (fun cs => negb (c_open cs)) (skipn (length (cursors s)) (cursors s')) = true).
Proof.
  intros H0 s'. split; [apply resolve_closes_connection; exact H0|].
  intros Hdb Hfl. unfold s'.
  unfold send_claim_resolved_emails; unfold bind at 1; unfold log_debug at 1, append_line at 1.
  rewrite H0. unfold try_finally, try_except at 1.
  set (s1 := set_crash_log _ _).
  destruct (resolve_body_db_ok w s1 item_id claimant_id admin_id Hdb Hfl)
    as (r & s2 & Hb & tl & Hm & Ht).
  rewrite Hb. destruct r as [[]|e].
  - unfold db_close, db_attempt; rewrite Hdb; simpl.
    rewrite forallb_closed_map, Hm. unfold s1; simpl. rewrite skipn_map_len; exact Ht.
  - unfold resolve_handler, log_debug, append_line, db_close, db_attempt; unfold_monad; simpl.
    rewrite Hfl; simpl; rewrite Hdb; simpl.
    rewrite forallb_closed_map, Hm. unfold s1; simpl. rewrite skipn_map_len; exact Ht.
Qed.

(** *** Further properties of the module *)
Lemma update_nth_snoc {A} (f : A -> A) (l : list A) (x : A) :
  update_nth (length l) f (l ++ [x]) = l ++ [f x].
Proof. induction l as [|y l IH]; simpl; rewrite ?IH; reflexivity. Qed.

Lemma skipn_snoc_len {A} (l : list A) (x : A) : skipn (length l) (l ++ [x]) = [x].
Proof. induction l; simpl; auto. Qed.

Ltac some_inj :=
  repeat match goal with H : Some _ = Some _ |- _ => injection H as H; subst end.

(** [send_email] never touches the database or crash_debug.log: the
    Notifications rows, the driver calls, the cursors and the trace log are
    unchanged, and it opens at most one SMTP session. *)
Theorem send_email_isolated (w : world) (s : state) (recipient_email subject body : string) :
  let '(_, s') := send_email recipient_email subject body w s in
  notifications s' = notifications s /\ db_log s' = db_log s /\ cursors s' = cursors s /\
  crash_log s' = crash_log s /\ smtp_sessions s' <= S (smtp_sessions s).
Proof. unfold send_email; run_code; repeat split; try reflexivity; simpl; lia. Qed.

(** When an SMTP call other than [quit()] raises, [send_email] only appends
    to the traffic and never sends QUIT: the connection is left without a
    [server.quit()] (lines 63-67 jump to the [except] clause). *)
Theorem send_email_no_quit_after_failure (w : world) (s : state)
    (recipient_email subject body : string) (st : smtp_stage) (err : string) :
  st <> SQuit ->
  smtp_fault w (smtp_sessions s) st = Some err ->
  let '(_, s') := send_email recipient_email subject body w s in
  exists sent, net s' = net s ++ sent /\ ~ In NetQuit sent.
Proof.
  intros Hst Hf. destruct st; try congruence; clear Hst; unfold send_email.
  all: run_code_with ltac:(try congruence);
  rewrite <- ?app_assoc; eexists;
  (split; [first [reflexivity | symmetry; apply app_nil_r] | simpl; intuition congruence]).
Qed.

(** [get_user_email] without a cursor, when no driver or file call fails:
    it returns the Users row of [user_id] (None when there is none), opens one
    dictionary cursor, runs the SELECT, fetches one row and closes the cursor,
    and prints the not-found warning exactly when the user is absent. *)
Theorem get_user_email_lookup (w : world) (s : state) (user_id : Z) :
  no_faults w ->
  let c := length (cursors s) in
  let '(r, s') := get_user_email user_id None w s in
  r = Ok (option_map RUser (users_table w user_id)) /\
  db_log s' = db_log s ++ [GetCursor true; Execute c (SelectUser user_id); FetchOne c;
                           CloseCursor c] /\
  cursors s' = cursors s ++ [{| c_open := false; c_rows := [] |}] /\
  stdout s' = stdout s ++
    match users_table w user_id with
    | Some _ => []
    | None => ["Warning: User with ID " +++ Z_to_dec user_id +++ " not found."]
    end.
Proof.
  intros [Hdb Hfl]. unfold get_user_email.
  run_code_with ltac:(rewrite ?Hdb, ?Hfl in *; simpl in *; try discriminate; some_inj;
                      simpl in *; try discriminate);
  rewrite ?update_nth_snoc; simpl; rewrite <- ?app_assoc, ?app_nil_r;
  repeat split; reflexivity.
Qed.

(** [get_user_email] with an open cursor of the caller, when no driver or
    file call fails: it returns the Users row of [user_id], issues only the
    SELECT and the fetch on that cursor, and leaves that cursor open. *)
Theorem get_user_email_borrowed_lookup (w : world) (s : state) (user_id : Z) (c : nat)
    (cs : cursor_st) :
  no_faults w ->
  nth_error (cursors s) c = Some cs ->
  c_open cs = true ->
  let '(r, s') := get_user_email user_id (Some c) w s in
  r = Ok (option_map RUser (users_table w user_id)) /\
  db_log s' = db_log s ++ [Execute c (SelectUser user_id); FetchOne c] /\
  nth_error (cursors s') c = Some {| c_open := true; c_rows := [] |} /\
  stdout s' = stdout s ++
    match users_table w user_id with
    | Some _ => []
    | None => ["Warning: User with ID " +++ Z_to_dec user_id +++ " not found."]
    end.
Proof.
  intros [Hdb Hfl] Hc Ho. unfold get_user_email.
  run_code_with ltac:(rewrite ?Hdb, ?Hfl in *; simpl in *; try discriminate; some_inj;
                      simpl in *; try congruence);
  rewrite ?nth_error_update_nth_eq; simpl;
  repeat match goal with
         | H : nth_error (cursors s) c = Some _ |- _ => rewrite H; simpl
         | H : c_open ?x = true |- context [c_open ?x] => rewrite H
         end;
  rewrite <- ?app_assoc, ?app_nil_r;
  repeat split; reflexivity.
Qed.

Lemma insert_notification_raise_cursors (w : world) (s : state) (user_id : Z)
    (message notification_type : string) :
  let '(r, s') := insert_notification user_id message notification_type w s in
  forall e, r = Raise e ->
  skipn (length (cursors s)) (cursors s') = [] \/
  skipn (length (cursors s)) (cursors s') = [{| c_open := true; c_rows := [] |}].
Proof.
  unfold insert_notification; run_code; intros e He; try discriminate;
    rewrite ?skipn_snoc_len, ?skipn_all; auto.
Qed.

(** When [insert_notification] raises, it has opened no cursor (the failure
    is [db.get_cursor()] itself) or exactly one, which it leaves open: no
    [try]/[finally] closes the cursor of line 82. *)
Theorem insert_notification_failure_keeps_cursor (w : world) (s : state) (user_id : Z)
    (message notification_type : string) (e : exc) :
  fst (insert_notification user_id message notification_type w s) = Raise e ->
  let s' := snd (insert_notification user_id message notification_type w s) in
  skipn (length (cursors s)) (cursors s') = [] \/
  skipn (length (cursors s)) (cursors s') = [{| c_open := true; c_rows := [] |}].
Proof.
  pose proof (insert_notification_raise_cursors w s user_id message notification_type) as H.
  destruct (insert_notification user_id message notification_type w s) as [r s'];
    simpl; intros ->; exact (H e eq_refl).
Qed.


Section Grows.
Variable f : state -> nat.

Lemma grows_ret {A} (n : nat) (a : A) : grows_by f n (ret a).
Proof. intros w s; simpl; lia. Qed.

Lemma grows_raise {A} (n : nat) (e : exc) : grows_by f n (@raise A e).
Proof. intros w s; simpl; lia. Qed.

Lemma grows_mono {A} (a n : nat) (m : M A) : grows_by f a m -> a <= n -> grows_by f n m.
Proof. intros Hm Ha w s; specialize (Hm w s); lia. Qed.

Lemma grows_bind {A B} (a n : nat) (m : M A) (k : A -> M B) :
  grows_by f a m -> a <= n -> (forall x, grows_by f (n - a) (k x)) ->
  grows_by f n (bind m k).
Proof.
  intros Hm Ha Hk w s; specialize (Hm w s); unfold bind.
  destruct (m w s) as [[x|e] s1]; simpl in *; [specialize (Hk x w s1) |]; lia.
Qed.

Lemma grows_try_except0 {A} (n : nat) (m : M A) (h : exc -> M A) :
  grows_by f n m -> (forall e, grows_by f 0 (h e)) -> grows_by f n (try_except m h).
Proof.
  intros Hm Hh w s; specialize (Hm w s); unfold try_except.
  destruct (m w s) as [[x|e] s1]; simpl in *; [| specialize (Hh e w s1)]; lia.
Qed.

Lemma grows_try_finally0 {A} (n : nat) (m : M A) (fin : M unit) :
  grows_by f n m -> grows_by f 0 fin -> grows_by f n (try_finally m fin).
Proof.
  intros Hm Hf w s; specialize (Hm w s); unfold try_finally.
  destruct (m w s) as [r s1]; specialize (Hf w s1).
  destruct (fin w s1) as [[[]|e] s2]; simpl in *; lia.
Qed.
Lemma grows_bind0 {A B} (n : nat) (m : M A) (k : A -> M B) :
  grows_by f 0 m -> (forall x, grows_by f n (k x)) -> grows_by f n (bind m k).
Proof.
  intros Hm Hk; apply (grows_bind 0); [exact Hm | lia | intros x; rewrite Nat.sub_0_r; apply Hk].
Qed.

Lemma grows_bind_assoc {A B C} (n : nat) (m : M A) (k1 : A -> M B) (k2 : B -> M C) :
  grows_by f n (bind m (fun x => bind (k1 x) k2)) -> grows_by f n (bind (bind m k1) k2).
Proof.
  intros H w s; specialize (H w s); unfold bind in *.
  destruct (m w s) as [[x|e] s1]; [destruct (k1 x w s1) as [[y|e] s2]|]; exact H.
Qed.
End Grows.

Ltac prim :=
  intros w s;
  unfold getenv, print, append_line, db_get_cursor, cursor_execute, cursor_fetchone,
    cursor_close, db_commit, db_close, db_attempt, with_open_cursor, run_query,
    smtp_open, smtp_step, email_port;
  unfold_monad;
  repeat (simpl; try split_goal_match); simpl; reflexivity.

Lemma getenv_keeps_db (k : string) : keeps_db (getenv k). Proof. prim. Qed.
Lemma print_keeps_db (l : string) : keeps_db (print l). Proof. prim. Qed.
Lemma append_line_keeps_db (f : log_file) (l : string) : keeps_db (append_line f l).
Proof. prim. Qed.
Lemma db_get_cursor_keeps_db (b : bool) : keeps_db (db_get_cursor b). Proof. prim. Qed.
Lemma execute_user_keeps_db (c : nat) (u : Z) : keeps_db (cursor_execute c (SelectUser u)).
Proof. prim. Qed.
Lemma execute_item_keeps_db (c : nat) (i : Z) : keeps_db (cursor_execute c (SelectItem i)).
Proof. prim. Qed.
Lemma fetchone_keeps_db (c : nat) : keeps_db (cursor_fetchone c). Proof. prim. Qed.
Lemma cursor_close_keeps_db (c : nat) : keeps_db (cursor_close c). Proof. prim. Qed.
Lemma db_commit_keeps_db : keeps_db db_commit. Proof. prim. Qed.
Lemma db_close_keeps_db : keeps_db db_close. Proof. prim. Qed.
Lemma smtp_open_keeps_db : keeps_db smtp_open. Proof. prim. Qed.
Lemma smtp_step_keeps_db (k : nat) (st : smtp_stage) (ev : net_event) :
  keeps_db (smtp_step k st ev).
Proof. prim. Qed.
Lemma email_port_keeps_db : keeps_db email_port. Proof. prim. Qed.

Lemma getenv_keeps_smtp (k : string) : keeps_smtp (getenv k). Proof. prim. Qed.
Lemma print_keeps_smtp (l : string) : keeps_smtp (print l). Proof. prim. Qed.
Lemma append_line_keeps_smtp (f : log_file) (l : string) : keeps_smtp (append_line f l).
Proof. prim. Qed.
Lemma db_get_cursor_keeps_smtp (b : bool) : keeps_smtp (db_get_cursor b). Proof. prim. Qed.
Lemma execute_keeps_smtp (c : nat) (q : query) : keeps_smtp (cursor_execute c q).
Proof. prim. Qed.
Lemma fetchone_keeps_smtp (c : nat) : keeps_smtp (cursor_fetchone c). Proof. prim. Qed.
Lemma cursor_close_keeps_smtp (c : nat) : keeps_smtp (cursor_close c). Proof. prim. Qed.
Lemma db_commit_keeps_smtp : keeps_smtp db_commit. Proof. prim. Qed.
Lemma db_close_keeps_smtp : keeps_smtp db_close. Proof. prim. Qed.
Lemma smtp_step_keeps_smtp (k : nat) (st : smtp_stage) (ev : net_event) :
  keeps_smtp (smtp_step k st ev).
Proof. prim. Qed.
Lemma email_port_keeps_smtp : keeps_smtp email_port. Proof. prim. Qed.

Lemma smtp_open_grows : grows_by smtp_sessions 1 smtp_open.
Proof. intros w s; simpl; lia. Qed.

Lemma insert_grows_rows (c : nat) (n : notif) :
  grows_by row_count 1 (cursor_execute c (InsertNotif n)).
Proof.
  intros w s; unfold cursor_execute, db_attempt, with_open_cursor, run_query, row_count;
  unfold_monad; simpl.
  destruct (db_fault _ _ _); simpl; [lia|].
  destruct (nth_error _ _) as [cs|]; simpl; [destruct (c_open cs)|]; simpl;
    rewrite ?length_app; simpl; lia.
Qed.

Lemma insert_grows_other (cid : Z) (c : nat) (n : notif) :
  workflow_row cid n = true -> grows_by (other_rows cid) 0 (cursor_execute c (InsertNotif n)).
Proof.
  intros Hn w s; unfold cursor_execute, db_attempt, with_open_cursor, run_query, other_rows;
  unfold_monad; simpl.
  destruct (db_fault _ _ _); simpl; [lia|].
  destruct (nth_error _ _) as [cs|]; simpl; [destruct (c_open cs)|]; simpl;
    rewrite ?filter_app; simpl; rewrite ?Hn; simpl; rewrite ?app_nil_r; lia.
Qed.

Lemma keeps_db_grows {A} (f : state -> nat) (m : M A) :
  (forall s s', notifications s = notifications s' -> f s = f s') ->
  keeps_db m -> grows_by f 0 m.
Proof. intros Hf Hm w s; rewrite (Hf _ s (Hm w s)); lia. Qed.

Lemma keeps_smtp_grows {A} (m : M A) : keeps_smtp m -> grows_by smtp_sessions 0 m.
Proof. intros Hm w s; rewrite (Hm w s); lia. Qed.

Lemma row_count_db (s s' : state) : notifications s = notifications s' -> row_count s = row_count s'.
Proof. unfold row_count; intros ->; reflexivity. Qed.

Lemma other_rows_db (cid : Z) (s s' : state) :
  notifications s = notifications s' -> other_rows cid s = other_rows cid s'.
Proof. unfold other_rows; intros ->; reflexivity. Qed.

Ltac keeps_db_leaf :=
  first [ apply getenv_keeps_db | apply print_keeps_db | apply append_line_keeps_db
        | apply db_get_cursor_keeps_db | apply execute_user_keeps_db
        | apply execute_item_keeps_db | apply fetchone_keeps_db | apply cursor_close_keeps_db
        | apply db_commit_keeps_db | apply db_close_keeps_db | apply smtp_open_keeps_db
        | apply smtp_step_keeps_db | apply email_port_keeps_db ].

Ltac keeps_smtp_leaf :=
  first [ apply getenv_keeps_smtp | apply print_keeps_smtp | apply append_line_keeps_smtp
        | apply db_get_cursor_keeps_smtp | apply execute_keeps_smtp | apply fetchone_keeps_smtp
        | apply cursor_close_keeps_smtp | apply db_commit_keeps_smtp | apply db_close_keeps_smtp
        | apply smtp_step_keeps_smtp | apply email_port_keeps_smtp ].

Ltac grow leaf :=
  repeat (cbv beta iota zeta;
    first
    [ eapply grows_mono; [solve [leaf] | lia]
    | apply grows_ret
    | apply grows_raise
    | eapply grows_bind; [solve [apply (grows_ret _ 0) | leaf] | lia | intros ?]
    | apply grows_bind_assoc
    | match goal with |- grows_by _ _ (bind (match ?x with _ => _ end) _) => destruct x end
    | apply grows_bind0; [ | intros ?]
    | apply grows_try_except0; [ | intros ?]
    | apply grows_try_finally0
    | match goal with |- grows_by _ _ (match ?x with _ => _ end) => destruct x end
    ]).

Ltac smtp_leaf := first [ apply smtp_open_grows | apply keeps_smtp_grows; keeps_smtp_leaf ].
Ltac rows_leaf := first [ apply insert_grows_rows
                        | apply keeps_db_grows; [exact row_count_db | keeps_db_leaf] ].

Lemma get_user_email_grows_smtp (u : Z) (c : option nat) :
  grows_by smtp_sessions 0 (get_user_email u c).
Proof. unfold get_user_email; destruct c; grow ltac:(smtp_leaf). Qed.

Lemma send_email_grows_smtp (r sj b : string) : grows_by smtp_sessions 1 (send_email r sj b).
Proof. unfold send_email; grow ltac:(smtp_leaf). Qed.

Ltac other_leaf :=
  first [ apply keeps_db_grows; [exact (other_rows_db _) | keeps_db_leaf] ].

Lemma get_user_email_grows_rows (u : Z) (c : option nat) :
  grows_by row_count 0 (get_user_email u c).
Proof. unfold get_user_email; destruct c; grow ltac:(rows_leaf). Qed.

Lemma get_user_email_grows_other (cid u : Z) (c : option nat) :
  grows_by (other_rows cid) 0 (get_user_email u c).
Proof. unfold get_user_email; destruct c; grow ltac:(other_leaf). Qed.

Lemma send_email_grows_rows (r sj b : string) : grows_by row_count 0 (send_email r sj b).
Proof. unfold send_email; grow ltac:(rows_leaf). Qed.

Lemma send_email_grows_other (cid : Z) (r sj b : string) :
  grows_by (other_rows cid) 0 (send_email r sj b).
Proof. unfold send_email; grow ltac:(other_leaf). Qed.

Lemma email_then_log_grows_smtp (who r sj b : string) (uid : Z) (msg : string) :
  grows_by smtp_sessions 1 (email_then_log who r sj b uid msg).
Proof.
  unfold email_then_log; grow ltac:(first [apply send_email_grows_smtp | smtp_leaf]).
Qed.

Lemma email_then_log_grows_rows (who r sj b : string) (uid : Z) (msg : string) :
  grows_by row_count 1 (email_then_log who r sj b uid msg).
Proof.
  unfold email_then_log; grow ltac:(first [apply send_email_grows_rows | rows_leaf]).
Qed.

Lemma email_then_log_grows_other (cid : Z) (who r sj b : string) (uid : Z) (msg : string) :
  workflow_row cid (email_row uid msg) = true ->
  grows_by (other_rows cid) 0 (email_then_log who r sj b uid msg).
Proof.
  intros H; unfold email_then_log;
    grow ltac:(first [apply send_email_grows_other | other_leaf
                     | apply insert_grows_other; exact H]).
Qed.

Lemma workflow_row_reporter (cid uid : Z) : workflow_row cid (email_row uid reporter_message) = true.
Proof. reflexivity. Qed.

Lemma workflow_row_claimant (cid : Z) : workflow_row cid (email_row cid claimant_message) = true.
Proof. unfold workflow_row; simpl; rewrite Z.eqb_refl; reflexivity. Qed.

Lemma resolve_body_grows_smtp (i c a : Z) : grows_by smtp_sessions 2 (resolve_body i c a).
Proof.
  unfold resolve_body;
    grow ltac:(first [apply email_then_log_grows_smtp | apply get_user_email_grows_smtp
                     | smtp_leaf]).
Qed.

Lemma resolve_body_grows_rows (i c a : Z) : grows_by row_count 2 (resolve_body i c a).
Proof.
  unfold resolve_body;
    grow ltac:(first [apply email_then_log_grows_rows | apply get_user_email_grows_rows
                     | rows_leaf]).
Qed.

Lemma resolve_body_grows_other (i c a : Z) : grows_by (other_rows c) 0 (resolve_body i c a).
Proof.
  unfold resolve_body;
    grow ltac:(first [apply email_then_log_grows_other;
                      first [apply workflow_row_reporter | apply workflow_row_claimant]
                     | apply get_user_email_grows_other | other_leaf]).
Qed.

(** One run of [send_claim_resolved_emails] opens at most two SMTP
    sessions, whatever the database, the files and the transport do. *)
Theorem send_claim_resolved_emails_session_bound (w : world) (s : state)
    (item_id claimant_id admin_id : Z) :
  smtp_sessions (snd (send_claim_resolved_emails item_id claimant_id admin_id w s))
  <= smtp_sessions s + 2.
Proof.
  revert w s; change (grows_by smtp_sessions 2 (send_claim_resolved_emails item_id claimant_id admin_id)).
  unfold send_claim_resolved_emails, resolve_handler;
    grow ltac:(first [apply resolve_body_grows_smtp | smtp_leaf]).
Qed.



Lemma extends_refl (s : state) : extends s s.
Proof. exists []; rewrite app_nil_r; reflexivity. Qed.

Lemma extends_trans (s1 s2 s3 : state) : extends s1 s2 -> extends s2 s3 -> extends s1 s3.
Proof. intros [l1 H1] [l2 H2]; exists (l1 ++ l2); rewrite H2, H1, app_assoc; reflexivity. Qed.

Lemma appends_ret {A} (a : A) : appends (ret a).
Proof. intros w s; apply extends_refl. Qed.

Lemma appends_raise {A} (e : exc) : appends (@raise A e).
Proof. intros w s; apply extends_refl. Qed.

Lemma appends_bind {A B} (m : M A) (k : A -> M B) :
  appends m -> (forall x, appends (k x)) -> appends (bind m k).
Proof.
  intros Hm Hk w s; specialize (Hm w s); unfold bind.
  destruct (m w s) as [[x|e] s1]; simpl in *; [eapply extends_trans; [exact Hm | apply Hk] | exact Hm].
Qed.

Lemma appends_try_except {A} (m : M A) (h : exc -> M A) :
  appends m -> (forall e, appends (h e)) -> appends (try_except m h).
Proof.
  intros Hm Hh w s; specialize (Hm w s); unfold try_except.
  destruct (m w s) as [[x|e] s1]; simpl in *; [exact Hm | eapply extends_trans; [exact Hm | apply Hh]].
Qed.

Lemma appends_try_finally {A} (m : M A) (fin : M unit) :
  appends m -> appends fin -> appends (try_finally m fin).
Proof.
  intros Hm Hf w s; specialize (Hm w s); unfold try_finally.
  destruct (m w s) as [r s1]; specialize (Hf w s1).
  destruct (fin w s1) as [[[]|e] s2]; simpl in *; eapply extends_trans; eassumption.
Qed.

Lemma keeps_db_appends {A} (m : M A) : keeps_db m -> appends m.
Proof. intros Hm w s; exists []; rewrite (Hm w s), app_nil_r; reflexivity. Qed.

Lemma insert_appends (c : nat) (n : notif) : appends (cursor_execute c (InsertNotif n)).
Proof.
  intros w s; unfold cursor_execute, db_attempt, with_open_cursor, run_query;
  unfold_monad; simpl.
  destruct (db_fault _ _ _); simpl; [exists []; simpl; rewrite app_nil_r; reflexivity|].
  destruct (nth_error _ _) as [cs|]; simpl; [destruct (c_open cs)|]; simpl;
    first [exists [n]; reflexivity | exists []; simpl; rewrite app_nil_r; reflexivity].
Qed.

Ltac append leaf :=
  repeat (cbv beta iota zeta;
    first
    [ solve [leaf]
    | apply appends_ret
    | apply appends_raise
    | apply appends_bind; [ | intros ?]
    | apply appends_try_except; [ | intros ?]
    | apply appends_try_finally
    | match goal with |- appends (match ?x with _ => _ end) => destruct x end
    ]).

Ltac app_leaf := first [ apply insert_appends | apply keeps_db_appends; keeps_db_leaf ].

Lemma get_user_email_appends (u : Z) (c : option nat) : appends (get_user_email u c).
Proof. unfold get_user_email; destruct c; append ltac:(app_leaf). Qed.

Lemma send_email_appends (r sj b : string) : appends (send_email r sj b).
Proof. unfold send_email; append ltac:(app_leaf). Qed.

Lemma email_then_log_appends (who r sj b : string) (uid : Z) (msg : string) :
  appends (email_then_log who r sj b uid msg).
Proof. unfold email_then_log; append ltac:(first [apply send_email_appends | app_leaf]). Qed.

Lemma resolve_body_appends (i c a : Z) : appends (resolve_body i c a).
Proof.
  unfold resolve_body;
    append ltac:(first [apply email_then_log_appends | apply get_user_email_appends | app_leaf]).
Qed.

Lemma send_claim_resolved_emails_appends (i c a : Z) : appends (send_claim_resolved_emails i c a).
Proof.
  unfold send_claim_resolved_emails, resolve_handler;
    append ltac:(first [apply resolve_body_appends | app_leaf]).
Qed.

Lemma filter_negb_nil {A} (p : A -> bool) (l : list A) :
  length (filter (fun x => negb (p x)) l) = 0 -> forallb p l = true.
Proof.
  induction l as [|x l IH]; simpl; auto.
  destruct (p x); simpl; auto; discriminate.
Qed.

(** One run of [send_claim_resolved_emails] never changes or removes an
    existing Notifications row: it appends at most two rows, each of type
    EMAIL with status SENT, carrying the reporter's message or the claimant's
    message for [claimant_id]. *)
Theorem send_claim_resolved_emails_new_rows (w : world) (s : state)
    (item_id claimant_id admin_id : Z) :
  exists new,
    notifications (snd (send_claim_resolved_emails item_id claimant_id admin_id w s)) =
    notifications s ++ new /\
    length new <= 2 /\ forallb (workflow_row claimant_id) new = true.
Proof.
  destruct (send_claim_resolved_emails_appends item_id claimant_id admin_id w s) as [new Hn].
  exists new; split; [exact Hn|].
  assert (Hr : grows_by row_count 2 (send_claim_resolved_emails item_id claimant_id admin_id))
    by (unfold send_claim_resolved_emails, resolve_handler;
        grow ltac:(first [apply resolve_body_grows_rows | rows_leaf])).
  assert (Ho : grows_by (other_rows claimant_id) 0
                 (send_claim_resolved_emails item_id claimant_id admin_id))
    by (unfold send_claim_resolved_emails, resolve_handler;
        grow ltac:(first [apply resolve_body_grows_other | other_leaf])).
  specialize (Hr w s); specialize (Ho w s); unfold row_count, other_rows in *.
  rewrite Hn in Hr, Ho; rewrite length_app in Hr; rewrite filter_app, length_app in Ho.
  split; [lia | apply filter_negb_nil; lia].
Qed.

Ltac prim_cursors :=
  intros w s;
  unfold cursor_count, getenv, print, append_line, db_get_cursor, cursor_execute,
    cursor_fetchone, cursor_close, db_commit, db_close, db_attempt, with_open_cursor,
    run_query, smtp_open, smtp_step, email_port;
  unfold_monad;
  repeat (simpl; try split_goal_match); simpl; rewrite ?length_update_nth, ?length_app;
  simpl; lia.

Lemma getenv_cursors (k : string) : grows_by cursor_count 0 (getenv k). Proof. prim_cursors. Qed.
Lemma print_cursors (l : string) : grows_by cursor_count 0 (print l). Proof. prim_cursors. Qed.
Lemma append_line_cursors (f : log_file) (l : string) :
  grows_by cursor_count 0 (append_line f l).
Proof. prim_cursors. Qed.
Lemma db_get_cursor_cursors (b : bool) : grows_by cursor_count 1 (db_get_cursor b).
Proof. prim_cursors. Qed.
Lemma execute_cursors (c : nat) (q : query) : grows_by cursor_count 0 (cursor_execute c q).
Proof. intros w s; destruct q; revert w s; prim_cursors. Qed.
Lemma fetchone_cursors (c : nat) : grows_by cursor_count 0 (cursor_fetchone c).
Proof. prim_cursors. Qed.
Lemma cursor_close_cursors (c : nat) : grows_by cursor_count 0 (cursor_close c).
Proof. prim_cursors. Qed.
Lemma db_commit_cursors : grows_by cursor_count 0 db_commit. Proof. prim_cursors. Qed.
Lemma db_close_cursors : grows_by cursor_count 0 db_close. Proof. prim_cursors. Qed.
Lemma smtp_open_cursors : grows_by cursor_count 0 smtp_open. Proof. prim_cursors. Qed.
Lemma smtp_step_cursors (k : nat) (st : smtp_stage) (ev : net_event) :
  grows_by cursor_count 0 (smtp_step k st ev).
Proof. prim_cursors. Qed.
Lemma email_port_cursors : grows_by cursor_count 0 email_port. Proof. prim_cursors. Qed.

Ltac cursors_leaf :=
  first [ apply getenv_cursors | apply print_cursors | apply append_line_cursors
        | apply db_get_cursor_cursors | apply execute_cursors | apply fetchone_cursors
        | apply cursor_close_cursors | apply db_commit_cursors | apply db_close_cursors
        | apply smtp_open_cursors | apply smtp_step_cursors | apply email_port_cursors ].

Lemma get_user_email_borrowed_cursors (u : Z) (c : nat) :
  grows_by cursor_count 0 (get_user_email u (Some c)).
Proof. unfold get_user_email; grow ltac:(cursors_leaf). Qed.

Lemma send_email_cursors (r sj b : string) : grows_by cursor_count 0 (send_email r sj b).
Proof. unfold send_email; grow ltac:(cursors_leaf). Qed.

Lemma email_then_log_cursors (who r sj b : string) (uid : Z) (msg : string) :
  grows_by cursor_count 1 (email_then_log who r sj b uid msg).
Proof. unfold email_then_log; grow ltac:(first [apply send_email_cursors | cursors_leaf]). Qed.

Lemma resolve_body_cursors (i c a : Z) : grows_by cursor_count 3 (resolve_body i c a).
Proof.
  unfold resolve_body;
    grow ltac:(first [apply email_then_log_cursors | apply get_user_email_borrowed_cursors
                     | cursors_leaf]).
Qed.

(** One run of [send_claim_resolved_emails] opens at most three cursors:
    the one of line 101 and one per notification insert. *)
Theorem send_claim_resolved_emails_cursor_bound (w : world) (s : state)
    (item_id claimant_id admin_id : Z) :
  length (cursors (snd (send_claim_resolved_emails item_id claimant_id admin_id w s)))
  <= length (cursors s) + 3.
Proof.
  revert w s; change (grows_by cursor_count 3
                        (send_claim_resolved_emails item_id claimant_id admin_id)).
  unfold send_claim_resolved_emails, resolve_handler;
    grow ltac:(first [apply resolve_body_cursors | cursors_leaf]).
Qed.

(** ** Counterexamples *)

(** Counterexample to claim C1 as stated.  Mail is unconfigured, so every
    [send_email] call reports success; the INSERT of Alice's (user 1) row
    deadlocks.  The run completes, Alice's send reported success, and yet
    only Bob's row (user 2) exists. *)
Lemma email_success_without_row :
  let w := sample_world env_empty insert_deadlock_user1 no_file_fault no_smtp_fault in
  (forall recipient subject body st,
     fst (send_email recipient subject body w st) = Ok true) /\
  (let '(r, s') := send_claim_resolved_emails 42 2 9 w init_state in
   r = Ok tt /\ notifications s' = [email_row 2 claimant_message]).
Proof.
  intros w. split.
  - intros; reflexivity.
  - vm_compute. split; reflexivity.
Qed.

(** Counterexample to claim C2 as stated.  When [crash_debug.log] cannot be
    written, the first [log_debug] call (line 97, before the [try]) raises
    and the exception leaves [send_claim_resolved_emails]. *)
Lemma crash_log_failure_escapes :
  fst (send_claim_resolved_emails 42 2 9
         (sample_world env_full no_db_fault crash_log_full no_smtp_fault) init_state)
  = Raise (Exc OSError "[Errno 28] No space left on device").
Proof. vm_compute. reflexivity. Qed.

(** Counterexample to claim C5 as stated.  A failing INSERT is not caught by
    [insert_notification]: the database error reaches its caller and no
    diagnostic is printed. *)
Lemma insert_notification_raises :
  let '(r, s') := insert_notification 1 reporter_message Notification_TYPES_EMAIL
                    (sample_world env_full insert_deadlock_user1 no_file_fault no_smtp_fault)
                    init_state in
  r = Raise (Exc DbError "Deadlock found when trying to get lock") /\ stdout s' = [].
Proof. vm_compute. split; reflexivity. Qed.

(** Counterexample to claim C7 as stated.  The item query fails after the
    run's cursor was opened: the [except] clause handles it and [db.close()]
    runs, but [cursor.close()] is never called, so the cursor stays open. *)
Lemma resolve_leaves_cursor_open :
  let '(r, s') := send_claim_resolved_emails 42 2 9
                    (sample_world env_full item_query_lost no_file_fault no_smtp_fault)
                    init_state in
  r = Ok tt /\ cursors s' = [{| c_open := true; c_rows := [] |}] /\
  last (db_log s') Commit = CloseConn.
Proof. vm_compute. split; [reflexivity | split; reflexivity]. Qed.

(** Counterexample to claim C8 as stated.  When [get_user_email] has to open
    its own cursor and [db.get_cursor] fails (line 18, outside the [try]),
    the exception reaches the caller and no warning is printed. *)
Lemma get_user_email_cursor_failure_raises :
  let '(r, s') := get_user_email 7 None
                    (sample_world env_full no_connection no_file_fault no_smtp_fault)
                    init_state in
  r = Raise (Exc DbError "Too many connections") /\ stdout s' = [].
Proof. vm_compute. split; reflexivity. Qed.

(** ** Witnesses *)

Lemma send_email_unconfigured_witness :
  let w := w_unconfigured in let s := init_state in
  let recipient_email := "bob@back2u.test" in let subject := "Hello" in
  let body := "Hi Bob" in
  config_complete w = false /\
  send_email recipient_email subject body w s =
  (Ok true,
   set_stdout s
     (stdout s ++
      ["Email credentials not configured. Missing: " +++
         join ", " (filter (fun k => negb (truthy (env w k))) required_keys);
       "Would have sent to " +++ recipient_email +++ ": " +++ subject])).
Proof.
  intros w s recipient_email subject body. split; [reflexivity|].
  apply (send_email_unconfigured w s recipient_email subject body). reflexivity.
Defined.

Lemma send_email_transport_error_witness :
  let w := w_refused in let s := init_state in
  let recipient_email := "bob@back2u.test" in let subject := "Hello" in
  let body := "Hi Bob" in let err := "[Errno 111] Connection refused" in
  config_complete w = true /\ port_ok w = true /\
  smtp_first_fault w (smtp_sessions s) = Some err /\
  (let line := "ERROR sending email to " +++ recipient_email +++ ": " +++ err in
   let '(r, s') := send_email recipient_email subject body w s in
   match r with
   | Ok b => b = false /\ email_log s' = email_log s ++ [line]
   | Raise e => exc_origin e = OSError /\ email_log s' = email_log s
   end /\
   (file_fault w (file_ops s) EmailDebugLog line = None -> r = Ok false)).
Proof.
  intros w s recipient_email subject body err.
  split; [reflexivity|]. split; [reflexivity|]. split; [reflexivity|].
  apply (send_email_transport_error w s recipient_email subject body err);
    reflexivity.
Defined.

Lemma send_email_bad_port_witness :
  let w := w_bad_port in let s := init_state in
  let recipient_email := "bob@back2u.test" in let subject := "Hello" in
  let body := "Hi Bob" in let v := "smtp" in
  config_complete w = true /\ env w "EMAIL_PORT" = Some v /\ py_int v = None /\
  (let err := "invalid literal for int() with base 10: '" +++ v +++ "'" in
   let line := "ERROR sending email to " +++ recipient_email +++ ": " +++ err in
   let '(r, s') := send_email recipient_email subject body w s in
   net s' = net s /\ smtp_sessions s' = smtp_sessions s /\
   match r with
   | Ok b => b = false /\ email_log s' = email_log s ++ [line]
   | Raise e => exc_origin e = OSError /\ email_log s' = email_log s
   end /\
   (file_fault w (file_ops s) EmailDebugLog line = None -> r = Ok false)).
Proof.
  intros w s recipient_email subject body v.
  split; [reflexivity|]. split; [reflexivity|]. split; [reflexivity|].
  apply (send_email_bad_port w s recipient_email subject body v); reflexivity.
Defined.

Lemma get_user_email_absent_witness :
  let w := w_healthy in let s := init_state in
  let user_id := 7%Z in let cursor := @None nat in
  (cursor = None -> db_fault w (length (db_log s)) (GetCursor true) = None) /\
  (let c := match cursor with Some c => c | None => length (cursors s) end in
   let k := (length (db_log s) + match cursor with Some _ => 0 | None => 1 end)%nat in
   let warning := "Warning: User with ID " +++ Z_to_dec user_id +++ " not found." in
   let error e := "Error fetching user " +++ Z_to_dec user_id +++ ": " +++ exc_text e in
   let '(r, s') := get_user_email user_id cursor w s in
   (exists v, r = Ok v) /\
   (r = Ok None ->
    stdout s' = stdout s ++ [warning] \/ exists e, stdout s' = stdout s ++ [error e]) /\
   (users_table w user_id = None -> r = Ok None) /\
   (users_table w user_id = None -> (forall n op, db_fault w n op = None) ->
    (forall c0, cursor = Some c0 ->
     exists cs, nth_error (cursors s) c0 = Some cs /\ c_open cs = true) ->
    stdout s' = stdout s ++ [warning]) /\
   (forall m, db_fault w k (Execute c (SelectUser user_id)) = Some m ->
    r = Ok None /\ stdout s' = stdout s ++ [error (Exc DbError m)])).
Proof.
  intros w s user_id cursor.
  assert (H : cursor = None -> db_fault w (length (db_log s)) (GetCursor true) = None)
    by (intros; reflexivity).
  split; [exact H|]. exact (get_user_email_absent w s user_id cursor H).
Defined.

Lemma send_claim_resolved_emails_no_escape_witness :
  let w := w_refused in let s := init_state in
  let item_id := 42%Z in let claimant_id := 2%Z in let admin_id := 9%Z in
  (forall n line, file_fault w n CrashDebugLog line = None) /\
  (forall n, db_fault w n CloseConn = None) /\
  (let '(r, s') := send_claim_resolved_emails item_id claimant_id admin_id w s in
   r = Ok tt /\
   (forall s1 e s2,
      log_debug ("Starting send_claim_resolved_emails for Item " +++ Z_to_dec item_id) w s
        = (Ok tt, s1) ->
      resolve_body item_id claimant_id admin_id w s1 = (Raise e, s2) ->
      crash_log s' = crash_log s2 ++ ["CRASH: " +++ exc_text e] /\
      stdout s' = stdout s2 ++
        ["Error in send_claim_resolved_emails (background): " +++ exc_text e])).
Proof.
  intros w s item_id claimant_id admin_id.
  assert (H1 : forall n line, file_fault w n CrashDebugLog line = None)
    by (intros; reflexivity).
  assert (H2 : forall n, db_fault w n CloseConn = None) by (intros; reflexivity).
  split; [exact H1|]. split; [exact H2|].
  exact (send_claim_resolved_emails_no_escape w s item_id claimant_id admin_id H1 H2).
Defined.

Lemma reporter_failure_claimant_success_witness :
  let w := w_refused in let s := init_state in
  let item_id := 42%Z in let claimant_id := 2%Z in let admin_id := 9%Z in
  let i := {| reported_by := 1; title := "Blue Backpack" |} in
  let ru := {| email := "alice@back2u.test"; name := "Alice" |} in
  let cu := {| email := "bob@back2u.test"; name := "Bob" |} in
  let err := "[Errno 111] Connection refused" in
  items_table w item_id = Some i /\
  users_table w (reported_by i) = Some ru /\
  users_table w claimant_id = Some cu /\
  config_complete w = true /\
  port_ok w = true /\
  smtp_first_fault w (smtp_sessions s) = Some err /\
  smtp_first_fault w (S (smtp_sessions s)) = None /\
  no_faults w /\
  (let '(r, s') := send_claim_resolved_emails item_id claimant_id admin_id w s in
   r = Ok tt /\
   smtp_sessions s' = S (S (smtp_sessions s)) /\
   notifications s' = notifications s ++ [email_row claimant_id claimant_message] /\
   email_log s' = email_log s ++
     ["ERROR sending email to " +++ email ru +++ ": " +++ err;
      "SUCCESS: Sent to " +++ email cu] /\
   crash_log s' = crash_log s ++
     ["Starting send_claim_resolved_emails for Item " +++ Z_to_dec item_id;
      "Getting cursor from thread-local db..."; "Fetching item info...";
      "Fetching reporter " +++ Z_to_dec (reported_by i) +++ "...";
      "Fetching claimant " +++ Z_to_dec claimant_id +++ "...";
      "Closing cursor..."; "Sending email to reporter..."; "Sending email to claimant...";
      "Inserting notification for claimant..."; "Notification inserted."] /\
   (exists l, db_log s' = l ++ [CloseConn])).
Proof.
  intros w s item_id claimant_id admin_id i ru cu err.
  assert (Hnf : no_faults w) by (split; intros; reflexivity).
  split; [reflexivity|]. split; [reflexivity|]. split; [reflexivity|].
  split; [reflexivity|]. split; [reflexivity|]. split; [reflexivity|].
  split; [reflexivity|]. split; [exact Hnf|].
  apply (reporter_failure_claimant_success w s item_id claimant_id admin_id i ru cu err);
    [reflexivity | reflexivity | reflexivity | reflexivity | reflexivity | reflexivity
    | reflexivity | exact Hnf].
Defined.

Lemma send_claim_resolved_emails_release_witness :
  let w := w_healthy in let s := init_state in
  let item_id := 42%Z in let claimant_id := 2%Z in let admin_id := 9%Z in
  file_fault w (file_ops s) CrashDebugLog
    ("Starting send_claim_resolved_emails for Item " +++ Z_to_dec item_id) = None /\
  (let s' := snd (send_claim_resolved_emails item_id claimant_id admin_id w s) in
   (exists l, db_log s' = l ++ [CloseConn]) /\
   ((forall n op, db_fault w n op = None) ->
    (forall n line, file_fault w n CrashDebugLog line = None) ->
    forallb (fun cs => negb (c_open cs)) (skipn (length (cursors s)) (cursors s')) = true)).
Proof.
  intros w s item_id claimant_id admin_id.
  split; [reflexivity|].
  apply (send_claim_resolved_emails_release w s item_id claimant_id admin_id); reflexivity.
Defined.

Lemma send_email_no_quit_after_failure_witness :
  let w := w_refused in let s := init_state in
  let err := "[Errno 111] Connection refused" in
  SConnect <> SQuit /\ smtp_fault w (smtp_sessions s) SConnect = Some err /\
  (let '(_, s') := send_email "alice@back2u.test" "Found it" "See you at the desk." w s in
   exists sent, net s' = net s ++ sent /\ ~ In NetQuit sent).
Proof.
  intros w s err.
  split; [discriminate|]. split; [reflexivity|].
  apply (send_email_no_quit_after_failure w s "alice@back2u.test" "Found it"
           "See you at the desk." SConnect err); [discriminate | reflexivity].
Defined.

Lemma get_user_email_lookup_witness :
  let w := w_healthy in let s := init_state in let user_id := 1%Z in
  no_faults w /\
  (let c := length (cursors s) in
   let '(r, s') := get_user_email user_id None w s in
   r = Ok (option_map RUser (users_table w user_id)) /\
   db_log s' = db_log s ++ [GetCursor true; Execute c (SelectUser user_id); FetchOne c;
                            CloseCursor c] /\
   cursors s' = cursors s ++ [{| c_open := false; c_rows := [] |}] /\
   stdout s' = stdout s ++
     match users_table w user_id with
     | Some _ => []
     | None => ["Warning: User with ID " +++ Z_to_dec user_id +++ " not found."]
     end).
Proof.
  intros w s user_id.
  assert (Hnf : no_faults w) by (split; intros; reflexivity).
  split; [exact Hnf|].
  apply (get_user_email_lookup w s user_id); exact Hnf.
Defined.

Lemma get_user_email_borrowed_lookup_witness :
  let w := w_healthy in
  let cs := {| c_open := true; c_rows := [] |} in
  let s := set_cursors init_state [cs] in let user_id := 2%Z in let c := 0%nat in
  no_faults w /\ nth_error (cursors s) c = Some cs /\ c_open cs = true /\
  (let '(r, s') := get_user_email user_id (Some c) w s in
   r = Ok (option_map RUser (users_table w user_id)) /\
   db_log s' = db_log s ++ [Execute c (SelectUser user_id); FetchOne c] /\
   nth_error (cursors s') c = Some {| c_open := true; c_rows := [] |} /\
   stdout s' = stdout s ++
     match users_table w user_id with
     | Some _ => []
     | None => ["Warning: User with ID " +++ Z_to_dec user_id +++ " not found."]
     end).
Proof.
  intros w cs s user_id c.
  assert (Hnf : no_faults w) by (split; intros; reflexivity).
  split; [exact Hnf|]. split; [reflexivity|]. split; [reflexivity|].
  apply (get_user_email_borrowed_lookup w s user_id c cs); [exact Hnf | reflexivity | reflexivity].
Defined.

Lemma insert_notification_failure_keeps_cursor_witness :
  let w := sample_world env_full insert_deadlock_user1 no_file_fault no_smtp_fault in
  let s := init_state in
  let e := Exc DbError "Deadlock found when trying to get lock" in
  fst (insert_notification 1 reporter_message Notification_TYPES_EMAIL w s) = Raise e /\
  (let s' := snd (insert_notification 1 reporter_message Notification_TYPES_EMAIL w s) in
   skipn (length (cursors s)) (cursors s') = [] \/
   skipn (length (cursors s)) (cursors s') = [{| c_open := true; c_rows := [] |}]).
Proof.
  intros w s e.
  split; [vm_compute; reflexivity|].
  apply (insert_notification_failure_keeps_cursor w s 1 reporter_message
           Notification_TYPES_EMAIL e); vm_compute; reflexivity.
Defined.
